(** * Outpost Python SDK: models, errors, the pyproject patch script and the
      authentication example, embedded in Rocq.

    Source files covered:
    - sdks/outpost-python/scripts/patch_pyproject_readme.py
    - sdks/outpost-python/src/outpost_sdk/errors/{notfound_error,ratelimited_error}.py
    - sdks/outpost-python/src/outpost_sdk/models/{awskinesisconfig,destinationupdateawssqs,
      destinationupdatehookdeck,gettenantop}.py
    - examples/sdk-python/example/auth.py *)

From Stdlib Require Import String Ascii ZArith List Bool Lia.
From stdpp Require Import base option gmap strings.

Open Scope Z_scope.

(* stdpp blocks the unfolding of string append; the proofs below compute with it. *)
#[local] Arguments String.append !_ _ / : simpl nomatch.

(** ** Python values, truthiness and exceptions *)

Module Py.

(** The exception classes the sources catch or can meet.  [OSError] and its
    subclasses are what [except OSError] selects; every class listed here
    derives from [Exception]. *)
Inductive ExcClass : Type :=
| OSError
| FileNotFoundError
| PermissionError
| IsADirectoryError
| UnicodeDecodeError
| ValueError
| TypeError
| SDKError (name : string).

(** An instance of [Exception]: its class and what [str(e)] gives. *)
Record PyException : Type := mkExc { exc_class : ExcClass; exc_str : string }.

Definition issubclass_OSError (c : ExcClass) : bool :=
  match c with
  | OSError | FileNotFoundError | PermissionError | IsADirectoryError => true
  | UnicodeDecodeError | ValueError | TypeError | SDKError _ => false
  end.

Definition isinstance_OSError (e : PyException) : bool :=
  issubclass_OSError (exc_class e).

(** Dynamically typed values as the example script inspects them. *)
#[warnings="-register-all"]
Inductive PyVal : Type :=
| VNone
| VBool (b : bool)
| VInt (z : Z)
| VStr (s : string)
| VObj (cls : string) (attrs : list (string * PyVal)).

Definition str_truthy (s : string) : bool :=
  match s with EmptyString => false | String _ _ => true end.

(** [bool(v)]: None, False, 0 and the empty string are falsy; an object
    without [__bool__] or [__len__] is truthy. *)
Definition truthy (v : PyVal) : bool :=
  match v with
  | VNone => false
  | VBool b => b
  | VInt z => negb (z =? 0)
  | VStr s => str_truthy s
  | VObj _ _ => true
  end.

Fixpoint assoc {A : Type} (k : string) (l : list (string * A)) : option A :=
  match l with
  | [] => None
  | (k', v) :: l' => if String.eqb k k' then Some v else assoc k l'
  end.

Definition getattr (v : PyVal) (name : string) : option PyVal :=
  match v with
  | VObj _ attrs => assoc name attrs
  | _ => None
  end.

Definition hasattr (v : PyVal) (name : string) : bool :=
  match getattr v name with Some _ => true | None => false end.

(** [x or y] on an [Optional[str]] left operand and a [str] right operand. *)
Definition opt_str_or (x : option string) (y : string) : string :=
  match x with
  | Some s => if str_truthy s then s else y
  | None => y
  end.

(** [x or y] on two strings. *)
Definition str_or (x y : string) : string :=
  if str_truthy x then x else y.

(** [str(x)] for [x : Optional[str]]. *)
Definition str_of_opt (x : option string) : string :=
  match x with
  | Some s => s
  | None => "None"
  end.

(** [not x] for [x : Optional[str]], as returned by [os.getenv]. *)
Definition not_opt_str (x : option string) : bool :=
  match x with
  | Some s => negb (str_truthy s)
  | None => true
  end.

End Py.

(** ** scripts/patch_pyproject_readme.py *)

Module PatchPyprojectReadme.
Import Py.

Definition dquote : string := String "034"%char EmptyString.

Definition PYPROJECT : string := "pyproject.toml".

Definition OLD : string :=
  Eval cbv in ("readme = " +:+ dquote +:+ "README-PYPI.md" +:+ dquote).

Definition NEW : string :=
  Eval cbv in ("readme = " +:+ dquote +:+ "README.md" +:+ dquote).

(** [s.startswith(p)] *)
Fixpoint startswith (p s : string) : bool :=
  match p, s with
  | EmptyString, _ => true
  | String a p', String b s' => Ascii.eqb a b && startswith p' s'
  | String _ _, EmptyString => false
  end.

(** [sub in s] *)
Fixpoint contains (sub s : string) : bool :=
  startswith sub s
  || match s with
     | EmptyString => false
     | String _ s' => contains sub s'
     end.

(** [s[n:]] *)
Fixpoint drop (n : nat) (s : string) : string :=
  match n, s with
  | O, _ => s
  | S n', String _ s' => drop n' s'
  | S _, EmptyString => EmptyString
  end.

(** [s.replace(old, new, 1)]: the leftmost occurrence only. *)
Fixpoint replace_first (old new s : string) : string :=
  if startswith old s then new +:+ drop (String.length old) s
  else match s with
       | EmptyString => EmptyString
       | String c s' => String c (replace_first old new s')
       end.

(** Number of positions of [s] at which [sub] starts. *)
Fixpoint occurrences (sub s : string) : nat :=
  ((if startswith sub s then 1 else 0)
   + match s with
     | EmptyString => 0
     | String _ s' => occurrences sub s'
     end)%nat.

(** [c in s] for a single character. *)
Fixpoint has_char (c : ascii) (s : string) : bool :=
  match s with
  | EmptyString => false
  | String a s' => Ascii.eqb c a || has_char c s'
  end.

Definition CR : ascii := "013"%char.
Definition LF : ascii := "010"%char.

(** Reading in text mode with the default [newline=None]: CR LF and a lone
    CR both come back as LF.  [after_cr] tells that the character before
    was a CR, whose LF has been produced already. *)
Fixpoint universal_newlines_from (after_cr : bool) (s : string) : string :=
  match s with
  | EmptyString => EmptyString
  | String c s' =>
      if Ascii.eqb c CR then String LF (universal_newlines_from true s')
      else if Ascii.eqb c LF then
        if after_cr then universal_newlines_from false s'
        else String LF (universal_newlines_from false s')
      else String c (universal_newlines_from false s')
  end.

Definition universal_newlines (s : string) : string :=
  universal_newlines_from false s.

(** Writing in text mode with the default [newline=None]: every LF is
    written as [os.linesep]. *)
Fixpoint translate_newlines (linesep : string) (s : string) : string :=
  match s with
  | EmptyString => EmptyString
  | String c s' =>
      if Ascii.eqb c LF then linesep +:+ translate_newlines linesep s'
      else String c (translate_newlines linesep s')
  end.

(** [s[:n]] *)
Fixpoint take (n : nat) (s : string) : string :=
  match n, s with
  | O, _ => EmptyString
  | S _, EmptyString => EmptyString
  | S n', String c s' => String c (take n' s')
  end.

Inductive Platform : Type := Posix | Windows.

(** [os.linesep] *)
Definition linesep (p : Platform) : string :=
  match p with
  | Posix => String LF EmptyString
  | Windows => String CR (String LF EmptyString)
  end.

(** What the operating system does to the three I/O steps of one run:
    [open(.., "r")] with [f.read()], [open(.., "w")], and [f.write] with the
    close that flushes it.  [None] lets the step succeed.  When the write
    fails, [flushed] characters had reached the file before it did.
    [platform] fixes the line separator. *)
Record Faults : Type := mkFaults {
  read_fault : option PyException;
  open_fault : option PyException;
  write_fault : option PyException;
  flushed : nat;
  platform : Platform
}.

Definition no_faults : Faults := mkFaults None None None 0 Posix.

Inductive Outcome : Type :=
| Returned (code : Z)
| Raised (e : PyException).

(** The observable result of one run of [main]: the file afterwards ([None]
    when it does not exist), the lines printed to stderr, and how [main]
    ended. *)
Record Run : Type := mkRun {
  file_after : option string;
  stderr : list string;
  outcome : Outcome
}.

Definition no_such_file : PyException :=
  mkExc FileNotFoundError
        ("[Errno 2] No such file or directory: '" +:+ PYPROJECT +:+ "'").

(** [with open(PYPROJECT, "r", encoding="utf-8") as f: content = f.read()].
    The file is opened in text mode, so the content read has its line
    endings turned into LF. *)
Definition read_file (io : Faults) (file : option string) : PyException + string :=
  match read_fault io with
  | Some e => inl e
  | None =>
      match file with
      | None => inl no_such_file
      | Some raw => inr (universal_newlines raw)
      end
  end.

(** [with open(PYPROJECT, "w", encoding="utf-8") as f: f.write(content)].
    Opening in mode "w" creates or truncates the file before anything is
    written; the text is written with LF as the line separator of the
    platform; a write that fails leaves in the file the part of that text
    that was written before the failure. *)
Definition write_file (io : Faults) (file : option string) (content : string)
  : option string * option PyException :=
  match open_fault io with
  | Some e => (file, Some e)
  | None =>
      let text := translate_newlines (linesep (platform io)) content in
      match write_fault io with
      | Some e => (Some (take (flushed io) text), Some e)
      | None => (Some text, None)
      end
  end.

Definition repr (s : string) : string := "'" +:+ s +:+ "'".

Definition main (io : Faults) (file : option string) : Run :=
  match read_file io file with
  | inl e =>
      if isinstance_OSError e
      then mkRun file ["Failed to read " +:+ PYPROJECT +:+ ": " +:+ exc_str e] (Returned 1)
      else mkRun file [] (Raised e)
  | inr content =>
      if negb (contains OLD content) then
        if contains NEW content then mkRun file [] (Returned 0)
        else mkRun file
               ["Neither " +:+ repr OLD +:+ " nor " +:+ repr NEW
                +:+ " found in " +:+ PYPROJECT]
               (Returned 1)
      else
        let content' := replace_first OLD NEW content in
        match write_file io file content' with
        | (file', Some e) =>
            if isinstance_OSError e
            then mkRun file' ["Failed to write " +:+ PYPROJECT +:+ ": " +:+ exc_str e]
                       (Returned 1)
            else mkRun file' [] (Raised e)
        | (file', None) => mkRun file' [] (Returned 0)
        end
  end.

(** Concrete runs used below: a generated pyproject.toml, the same file
    with CR LF line endings, a device that is full when the patched text is
    flushed, a file size limit reached after ten characters, and a file that
    is not UTF-8. *)
Definition generated_pyproject : string :=
  Eval cbv in ("[project]" +:+ String "010"%char (OLD +:+ String "010"%char "")).

Definition patched_pyproject : string :=
  Eval cbv in ("[project]" +:+ String LF (NEW +:+ String LF "")).

Definition crlf_pyproject : string :=
  Eval cbv in ("[project]" +:+ String CR (String LF (OLD +:+ String CR (String LF "")))).

Definition disk_full : Faults :=
  mkFaults None None (Some (mkExc OSError "[Errno 28] No space left on device"))
           0 Posix.

Definition file_too_large : Faults :=
  mkFaults None None (Some (mkExc OSError "[Errno 27] File too large")) 10 Posix.

Definition not_utf8 : Faults :=
  mkFaults (Some (mkExc UnicodeDecodeError
                    "'utf-8' codec can't decode byte 0xff in position 0: invalid start byte"))
           None None 0 Posix.

End PatchPyprojectReadme.

(** ** outpost_sdk/models: pydantic model declarations *)

Module Models.
Import Py.

(** The annotations the four model files use.  [TExt] names a type declared
    in another module of the SDK (TopicsUnion, AWSSQSConfig, ...). *)
Inductive FieldType : Type :=
| TStr
| TAny
| TExt (name : string)
| TOptional (t : FieldType).

(** [PathParamMetadata(style=..., explode=...)] *)
Record PathParamMetadata : Type := mkPathParam { style : string; explode : bool }.

(** One annotated class attribute: [name: type = default].  [field_default]
    is [None] for an attribute declared without a default. *)
Record Field : Type := mkField {
  field_name : string;
  field_type : FieldType;
  field_default : option PyVal;
  field_path : option PathParamMetadata
}.

Record ModelClass : Type := mkModel { class_name : string; fields : list Field }.

Definition AWSKinesisConfig : ModelClass :=
  mkModel "AWSKinesisConfig"
    [ mkField "stream_name" TStr None None;
      mkField "region" TStr None None;
      mkField "endpoint" (TOptional TStr) (Some VNone) None;
      mkField "partition_key_template" (TOptional TStr) (Some VNone) None ].

Definition DestinationUpdateAWSSQS : ModelClass :=
  mkModel "DestinationUpdateAWSSQS"
    [ mkField "topics" (TOptional (TExt "TopicsUnion")) (Some VNone) None;
      mkField "config" (TOptional (TExt "AWSSQSConfig")) (Some VNone) None;
      mkField "credentials" (TOptional (TExt "AWSSQSCredentials")) (Some VNone) None ].

Definition DestinationUpdateHookdeck : ModelClass :=
  mkModel "DestinationUpdateHookdeck"
    [ mkField "topics" (TOptional (TExt "TopicsUnion")) (Some VNone) None;
      mkField "config" (TOptional TAny) (Some VNone) None;
      mkField "credentials" (TOptional (TExt "HookdeckCredentials")) (Some VNone) None ].

Definition GetTenantGlobals : ModelClass :=
  mkModel "GetTenantGlobals"
    [ mkField "tenant_id" (TOptional TStr) (Some VNone)
        (Some (mkPathParam "simple" false)) ].

Definition GetTenantRequest : ModelClass :=
  mkModel "GetTenantRequest"
    [ mkField "tenant_id" (TOptional TStr) (Some VNone)
        (Some (mkPathParam "simple" false)) ].

Inductive FieldError : Type :=
| Missing (name : string)
| WrongType (name : string).

Section Construct.

(** Validation of the types declared outside these files. *)
Variable ext_valid : string -> PyVal -> bool.

Fixpoint conforms (t : FieldType) (v : PyVal) : bool :=
  match t with
  | TStr => match v with VStr _ => true | _ => false end
  | TAny => true
  | TExt name => ext_valid name v
  | TOptional t' => match v with VNone => true | _ => conforms t' v end
  end.

Definition validate_field (kwargs : gmap string PyVal) (f : Field)
  : FieldError + (string * PyVal) :=
  match kwargs !! field_name f with
  | Some v =>
      if conforms (field_type f) v then inr (field_name f, v)
      else inl (WrongType (field_name f))
  | None =>
      match field_default f with
      | Some d => inr (field_name f, d)
      | None => inl (Missing (field_name f))
      end
  end.

Fixpoint collect (rs : list (FieldError + (string * PyVal)))
  : list FieldError * list (string * PyVal) :=
  match rs with
  | [] => ([], [])
  | r :: rs' =>
      let (errs, attrs) := collect rs' in
      match r with
      | inl e => (e :: errs, attrs)
      | inr a => (errs, a :: attrs)
      end
  end.

(** Modelled from the spec: the constructor of [outpost_sdk.types.BaseModel]
    (a pydantic model), which is not among the sources.  The models are
    declarative schema mirrors with a required/optional field split: a
    keyword argument is checked against the field's annotation, an absent
    field takes its declared default, and an absent field without a default
    is reported; all field errors are reported together. *)
Definition construct (cls : ModelClass) (kwargs : gmap string PyVal)
  : list FieldError + PyVal :=
  match collect (map (validate_field kwargs) (fields cls)) with
  | ([], attrs) => inr (VObj (class_name cls) attrs)
  | (errs, _) => inl errs
  end.

End Construct.

(** *** The TypedDict twin of each model *)

(** One key of a [TypedDict]: [name: type], or [name: NotRequired[type]]
    when [key_required] is false. *)
Record TypedDictKey : Type := mkKey {
  key_name : string;
  key_type : FieldType;
  key_required : bool
}.

Record TypedDictClass : Type := mkTypedDict {
  typeddict_name : string;
  keys : list TypedDictKey
}.

Definition AWSKinesisConfigTypedDict : TypedDictClass :=
  mkTypedDict "AWSKinesisConfigTypedDict"
    [ mkKey "stream_name" TStr true;
      mkKey "region" TStr true;
      mkKey "endpoint" TStr false;
      mkKey "partition_key_template" TStr false ].

Definition DestinationUpdateAWSSQSTypedDict : TypedDictClass :=
  mkTypedDict "DestinationUpdateAWSSQSTypedDict"
    [ mkKey "topics" (TExt "TopicsUnionTypedDict") false;
      mkKey "config" (TExt "AWSSQSConfigTypedDict") false;
      mkKey "credentials" (TExt "AWSSQSCredentialsTypedDict") false ].

Definition DestinationUpdateHookdeckTypedDict : TypedDictClass :=
  mkTypedDict "DestinationUpdateHookdeckTypedDict"
    [ mkKey "topics" (TExt "TopicsUnionTypedDict") false;
      mkKey "config" TAny false;
      mkKey "credentials" (TExt "HookdeckCredentialsTypedDict") false ].

Definition GetTenantGlobalsTypedDict : TypedDictClass :=
  mkTypedDict "GetTenantGlobalsTypedDict" [ mkKey "tenant_id" TStr false ].

Definition GetTenantRequestTypedDict : TypedDictClass :=
  mkTypedDict "GetTenantRequestTypedDict" [ mkKey "tenant_id" TStr false ].

Definition required_keys (td : TypedDictClass) : list string :=
  map key_name (filter (fun k => key_required k) (keys td)).

(** Each TypedDict with the model declared beside it. *)
Definition declared_models : list (TypedDictClass * ModelClass) :=
  [ (AWSKinesisConfigTypedDict, AWSKinesisConfig);
    (DestinationUpdateAWSSQSTypedDict, DestinationUpdateAWSSQS);
    (DestinationUpdateHookdeckTypedDict, DestinationUpdateHookdeck);
    (GetTenantGlobalsTypedDict, GetTenantGlobals);
    (GetTenantRequestTypedDict, GetTenantRequest) ].

(** A keyword argument that is a string; one that is absent, None or a
    string. *)
Definition str_given (o : option PyVal) : Prop := exists s, o = Some (VStr s).

Definition opt_str_given (o : option PyVal) : Prop :=
  o = None \/ o = Some VNone \/ exists s, o = Some (VStr s).

End Models.

(** ** outpost_sdk/errors *)

Module Errors.
Import Py.

(** The part of [httpx.Response] the error classes read. *)
Record Response : Type := mkResponse { status_code : Z; text : string }.

(** *** notfound_error.py *)

Record NotFoundErrorData : Type := mkNotFoundErrorData {
  message : option string;
  additional_properties : option (list (string * PyVal))
}.

(** Modelled from the spec: the base class [outpost_sdk.errors.OutpostError],
    which is not among the sources.  The errors are thin exception wrappers
    around HTTP responses: the base keeps the message, the raw response and
    the body it is constructed with, and its [str()] is the message. *)
Record OutpostError : Type := mkOutpostError {
  err_message : string;
  raw_response : Response;
  body : option string
}.

Definition OutpostError_init (message : string) (raw_response : Response)
  (body : option string) : OutpostError :=
  mkOutpostError message raw_response body.

Record NotFoundError : Type := mkNotFoundError {
  base : OutpostError;
  data : NotFoundErrorData
}.

Definition NotFoundError_fallback (raw_response : Response) (body : option string)
  : string :=
  opt_str_or body (text raw_response).

(** The [message] that [__init__] computes and hands to the base class. *)
Definition NotFoundError_message (data : NotFoundErrorData) (raw_response : Response)
  (body : option string) : string :=
  let fallback := NotFoundError_fallback raw_response body in
  str_or (str_of_opt (message data)) fallback.

Definition NotFoundError_init (data : NotFoundErrorData) (raw_response : Response)
  (body : option string) : NotFoundError :=
  let message := NotFoundError_message data raw_response body in
  mkNotFoundError (OutpostError_init message raw_response body) data.

(** *** ratelimited_error.py *)

Record RateLimitedErrorData : Type := mkRateLimitedErrorData {
  rl_message : option string;
  rl_additional_properties : option (list (string * PyVal))
}.

(** [class RateLimitedError(Exception)]: the only attribute is [data]. *)
Record RateLimitedError : Type := mkRateLimitedError {
  rl_data : RateLimitedErrorData
}.

Definition RateLimitedError_init (data : RateLimitedErrorData) : RateLimitedError :=
  mkRateLimitedError data.

(** [__str__], over the SDK's [utils.marshal_json]. *)
Definition RateLimitedError_str (marshal_json : RateLimitedErrorData -> string)
  (e : RateLimitedError) : string :=
  marshal_json (rl_data e).

(** An error class keeps the raw response when the response an instance was
    built for can be read back from the instance.  [construct d r] is the
    instance built from parsed data [d] while handling response [r]. *)
Definition stores_raw_response {E D : Type} (construct : D -> Response -> E) : Prop :=
  exists get : E -> Response, forall d r, get (construct d r) = r.

Definition stores_data {E D R : Type} (construct : D -> R -> E) : Prop :=
  exists get : E -> D, forall d r, get (construct d r) = d.

(** Two responses and a parsed payload, for concrete instances. *)
Definition too_many_requests : Response := mkResponse 429 "slow down".
Definition server_error : Response := mkResponse 500 "internal error".
Definition no_message : RateLimitedErrorData := mkRateLimitedErrorData None None.

End Errors.

(** ** examples/sdk-python/example/auth.py *)

Module ExampleAuth.
Import Py.

(** [models.Security(admin_api_key=..., tenant_jwt=...)]; an argument that is
    not given is [None]. *)
Record Security : Type := mkSecurity { admin_api_key : PyVal; tenant_jwt : PyVal }.

(** [Optional[str]]: None or a string. *)
Definition optional_str (v : PyVal) : bool :=
  match v with
  | VNone | VStr _ => true
  | _ => false
  end.

(** What [str(e)] begins with for the validation error of [Security]. *)
Definition validation_error (fields : list string) : PyException :=
  mkExc ValueError
        ((match fields with
          | [_] => "1 validation error for Security"
          | _ => "2 validation errors for Security"
          end)
         +:+ String.concat ""
               (map (fun f => String "010"%char f
                              +:+ String "010"%char "  Input should be a valid string")
                    fields)).

(** Modelled from the spec: the constructor of [models.Security], which is
    not among the sources.  Like the other models it is a declarative schema
    mirror checked at construction: [admin_api_key] and [tenant_jwt] are
    optional strings, and a value that is neither None nor a string is
    refused with a validation error (an [Exception]). *)
Definition Security_init (admin_api_key tenant_jwt : PyVal) : PyException + Security :=
  match (if optional_str admin_api_key then [] else ["admin_api_key"])
        ++ (if optional_str tenant_jwt then [] else ["tenant_jwt"]) with
  | [] => inr (mkSecurity admin_api_key tenant_jwt)
  | fields => inl (validation_error fields)
  end%list.

(** What the script uses of an [Outpost] client: the security it was built
    with and [sdk_configuration.server_url]. *)
Record Outpost : Type := mkOutpost { security : Security; server_url : string }.

(** The SDK operations the script calls. *)
Inductive Op : Type :=
| HealthCheck
| DestinationsList (tenant_id : option string)
| TenantsGetToken (tenant_id : string).

(** The server behind the SDK: every call on a client returns a value or
    raises an instance of [Exception]. *)
Definition Server : Type := Outpost -> Op -> PyException + PyVal.

(** What a run does, in order. *)
Inductive Event : Type :=
| Print (line : string)
| PrintVal (v : PyVal)
| Call (client : Outpost) (op : Op)
| NewOutpost (client : Outpost)
| CloseOutpost (client : Outpost).

(** What unwinds the stack: an [Exception] instance, or the [SystemExit]
    that [sys.exit] raises, which [except Exception] does not catch. *)
Inductive Signal : Type :=
| Exc (e : PyException)
| SystemExit (code : Z).

(** A computation: the events it performed and how it ended. *)
Definition M (A : Type) : Type := list Event * (Signal + A).

Definition ret {A : Type} (a : A) : M A := ([], inr a).

Definition bind {A B : Type} (m : M A) (k : A -> M B) : M B :=
  match m with
  | (t, inl s) => (t, inl s)
  | (t, inr a) => let (t', r) := k a in ((t ++ t')%list, r)
  end.

Notation "x <- m ;; k" := (bind m (fun x => k))
  (at level 100, m at next level, right associativity).
Notation "m ;; k" := (bind m (fun _ => k))
  (at level 100, right associativity).

Definition trace {A : Type} (m : M A) : list Event := fst m.
Definition result {A : Type} (m : M A) : Signal + A := snd m.

Definition print (line : string) : M unit := ([Print line], inr tt).
Definition print_val (v : PyVal) : M unit := ([PrintVal v], inr tt).
Definition sys_exit {A : Type} (code : Z) : M A := ([], inl (SystemExit code)).

(** A constructor call: the instance, or the exception it raises. *)
Definition construct_or_raise {A : Type} (r : PyException + A) : M A :=
  ([], match r with
       | inl e => inl (Exc e)
       | inr a => inr a
       end).

Definition call (srv : Server) (client : Outpost) (op : Op) : M PyVal :=
  ([Call client op],
   match srv client op with
   | inl e => inl (Exc e)
   | inr v => inr v
   end).

(** [try: body  except Exception as e: handler e] *)
Definition try_except {A : Type} (body : M A) (handler : PyException -> M A) : M A :=
  match body with
  | (t, inl (Exc e)) => let (t', r) := handler e in ((t ++ t')%list, r)
  | (t, r) => (t, r)
  end.

(** [with Outpost(security=..., server_url=...) as o: body o]: building the
    client from checked security settings and a URL only stores them (no
    request is made); the client is closed on the way out, however the body
    ends. *)
Definition with_Outpost {A : Type} (sec : Security) (url : string)
  (body : Outpost -> M A) : M A :=
  let o := mkOutpost sec url in
  let (t, r) := body o in
  (([NewOutpost o] ++ t ++ [CloseOutpost o])%list, r).

(** [v.name], read where [hasattr(v, name)] has been checked. *)
Definition attr (v : PyVal) (name : string) : PyVal :=
  match getattr v name with
  | Some x => x
  | None => VNone
  end.

Definition with_jwt (srv : Server) (outpost : Outpost) (jwt : PyVal) : M unit :=
  print "--- Running with Tenant JWT ---" ;;
  try_except
    (destinations_res <- call srv outpost (DestinationsList None) ;;
     print "Destinations listed successfully using JWT:" ;;
     print_val destinations_res)
    (fun e => print ("Error listing destinations with JWT: " +:+ exc_str e)).

(** The test of line 34:
    [token_res and hasattr(token_res, "token") and token_res.token]. *)
Definition token_obtained (token_res : PyVal) : bool :=
  truthy token_res && hasattr token_res "token" && truthy (attr token_res "token").

Definition with_admin_api_key (srv : Server) (outpost : Outpost) (tenant_id : string)
  : M unit :=
  print "--- Running with Admin API Key ---" ;;
  try_except
    (health_res <- call srv outpost HealthCheck ;;
     print "Health check result:" ;;
     print_val health_res ;;
     destinations_res <- call srv outpost (DestinationsList (Some tenant_id)) ;;
     print ("Destinations listed successfully using Admin Key for tenant "
            +:+ tenant_id +:+ ":") ;;
     print_val destinations_res ;;
     token_res <- call srv outpost (TenantsGetToken tenant_id) ;;
     print ("Tenant token obtained for tenant " +:+ tenant_id +:+ ":") ;;
     print_val token_res ;;
     if token_obtained token_res then
       security_config <-
         construct_or_raise (Security_init VNone (attr token_res "token")) ;;
       with_Outpost security_config (server_url outpost)
         (fun jwt_outpost => with_jwt srv jwt_outpost (attr token_res "token"))
     else
       print "Could not obtain tenant token.")
    (fun e => print ("Error during admin operations: " +:+ exc_str e)).

(** [load_dotenv()]: variables of the .env file are added to the process
    environment; a variable that is already set keeps its value. *)
Definition load_dotenv (environ dotenv : gmap string string) : gmap string string :=
  environ ∪ dotenv.

(** [os.getenv(name)] *)
Definition getenv (environ : gmap string string) (name : string) : option string :=
  environ !! name.

(** The value that passes an [if not x: ... sys.exit(1)] guard. *)
Definition set_value (x : option string) : option string :=
  if not_opt_str x then None else x.

Definition run (srv : Server) (environ dotenv : gmap string string) : M unit :=
  let environ := load_dotenv environ dotenv in
  let admin_api_key := getenv environ "ADMIN_API_KEY" in
  let tenant_id := getenv environ "TENANT_ID" in
  let server_url := getenv environ "SERVER_URL" in
  match set_value admin_api_key with
  | None => print "Error: ADMIN_API_KEY not set." ;; sys_exit 1
  | Some admin_api_key =>
  match set_value tenant_id with
  | None => print "Error: TENANT_ID not set." ;; sys_exit 1
  | Some tenant_id =>
  match set_value server_url with
  | None => print "Error: SERVER_URL not set." ;; sys_exit 1
  | Some server_url =>
      let api_server_url := server_url +:+ "/api/v1" in
      security_config <-
        construct_or_raise (Security_init (VStr admin_api_key) VNone) ;;
      with_Outpost security_config api_server_url
        (fun outpost => with_admin_api_key srv outpost tenant_id) ;;
      print "--- Example finished ---"
  end end end.

(** The SDK calls of a trace, in order. *)
Fixpoint calls (t : list Event) : list (Outpost * Op) :=
  match t with
  | [] => []
  | Call c op :: t' => (c, op) :: calls t'
  | _ :: t' => calls t'
  end.

(** The client [with_admin_api_key] builds from a token response. *)
Definition jwt_client (outpost : Outpost) (token_res : PyVal) : Outpost :=
  mkOutpost (mkSecurity VNone (attr token_res "token")) (server_url outpost).

Definition unset_or_empty (x : option string) : Prop := x = None \/ x = Some "".

(** [scoped open t open']: read from left to right with the clients [open]
    already open (innermost first), the trace [t] makes every SDK call on the
    innermost open client, closes only the innermost open client, and leaves
    the clients [open'] open. *)
Inductive scoped : list Outpost -> list Event -> list Outpost -> Prop :=
| scoped_nil (open : list Outpost) : scoped open [] open
| scoped_Print (open open' : list Outpost) (line : string) (t : list Event) :
    scoped open t open' -> scoped open (Print line :: t) open'
| scoped_PrintVal (open open' : list Outpost) (v : PyVal) (t : list Event) :
    scoped open t open' -> scoped open (PrintVal v :: t) open'
| scoped_Call (c : Outpost) (open open' : list Outpost) (op : Op) (t : list Event) :
    scoped (c :: open) t open' -> scoped (c :: open) (Call c op :: t) open'
| scoped_NewOutpost (c : Outpost) (open open' : list Outpost) (t : list Event) :
    scoped (c :: open) t open' -> scoped open (NewOutpost c :: t) open'
| scoped_CloseOutpost (c : Outpost) (open open' : list Outpost) (t : list Event) :
    scoped open t open' -> scoped (c :: open) (CloseOutpost c :: t) open'.

(** Concrete servers and clients for the examples below. *)
Definition healthy_server : Server :=
  fun _ op =>
    match op with
    | HealthCheck => inr (VStr "OK")
    | DestinationsList _ => inr (VObj "ListDestinationsResponse" [])
    | TenantsGetToken _ => inr (VObj "TenantToken" [("token", VStr "eyJhbGciOi")])
    end.


Definition unreachable_server : Server :=
  fun _ _ => inl (mkExc (SDKError "ConnectError") "All connection attempts failed").

Definition admin_client : Outpost :=
  mkOutpost (mkSecurity (VStr "secret") VNone) "http://localhost:3333/api/v1".

End ExampleAuth.

(** * Properties *)

(** ** Strings: startswith, contains, replace *)

Section StringFacts.
Import PatchPyprojectReadme.

Lemma startswith_app (p t : string) : startswith p (p +:+ t) = true.
Proof.
  induction p as [|a p IH]; simpl.
  - reflexivity.
  - rewrite Ascii.eqb_refl. exact IH.
Qed.

Lemma startswith_split (p s : string) :
  startswith p s = true -> s = p +:+ drop (String.length p) s.
Proof.
  revert s. induction p as [|a p IH]; intros s H; simpl in *.
  - reflexivity.
  - destruct s as [|b s]; [discriminate|].
    apply andb_true_iff in H as [Hab Hp].
    apply Ascii.eqb_eq in Hab. subst b.
    f_equal. apply IH, Hp.
Qed.

Lemma drop_app (p t : string) : drop (String.length p) (p +:+ t) = t.
Proof. induction p as [|a p IH]; simpl; [reflexivity | exact IH]. Qed.

Lemma append_assoc (a b c : string) : (a +:+ b) +:+ c = a +:+ (b +:+ c).
Proof. induction a as [|x a IH]; simpl; [reflexivity | now rewrite IH]. Qed.

Lemma contains_startswith (sub s : string) :
  startswith sub s = true -> contains sub s = true.
Proof. destruct s; simpl; intros ->; reflexivity. Qed.

Lemma contains_app (sub pre post : string) :
  contains sub (pre +:+ sub +:+ post) = true.
Proof.
  induction pre as [|a pre IH]; simpl.
  - apply contains_startswith, startswith_app.
  - rewrite IH. apply orb_true_r.
Qed.

Lemma contains_occurrences (sub s : string) :
  contains sub s = negb (Nat.eqb (occurrences sub s) 0).
Proof.
  induction s as [|a s IH]; simpl.
  - destruct (startswith sub ""); reflexivity.
  - rewrite IH. destruct (startswith sub (String a s)); simpl; [reflexivity|].
    reflexivity.
Qed.

(** The replaced occurrence is the leftmost one, and everything around it
    is kept. *)
Lemma replace_first_spec (old new s : string) :
  contains old s = true ->
  exists pre post,
    s = pre +:+ old +:+ post
    /\ replace_first old new s = pre +:+ new +:+ post
    /\ forall pre' post', s = pre' +:+ old +:+ post' ->
         (String.length pre <= String.length pre')%nat.
Proof.
  induction s as [|a s IH]; simpl; intros H.
  - rewrite orb_false_r in H. rewrite H.
    exists "", (drop (String.length old) ""). simpl.
    split; [apply startswith_split, H|]. split; [reflexivity|]. intros; lia.
  - destruct (startswith old (String a s)) eqn:Hsw.
    + exists "", (drop (String.length old) (String a s)). simpl.
      split; [apply startswith_split, Hsw|]. split; [reflexivity|]. intros; lia.
    + simpl in H. destruct (IH H) as (pre & post & Hs & Hr & Hmin).
      exists (String a pre), post. simpl.
      split; [now rewrite Hs at 1|]. split; [now rewrite Hr|].
      intros pre' post' E. destruct pre' as [|b pre']; simpl in E.
      * rewrite E, startswith_app in Hsw. discriminate.
      * injection E as _ E. specialize (Hmin _ _ E). simpl. lia.
Qed.

Lemma replace_first_absent (old new s : string) :
  contains old s = false -> replace_first old new s = s.
Proof.
  induction s as [|a s IH]; simpl; intros H;
    apply orb_false_iff in H as [H1 H2]; rewrite H1; [reflexivity|].
  now rewrite IH.
Qed.

End StringFacts.

(** ** Replacing a pattern that cannot overlap its replacement

    Both the pattern and its replacement begin with a character that occurs
    nowhere else in them, and the pattern does not start where the
    replacement starts.  Then the replacement creates no occurrence. *)

Section NoOverlap.
Import PatchPyprojectReadme.

Variables (c : ascii) (old_tail new_tail : string).
Let old := String c old_tail.
Let new := String c new_tail.
Hypothesis old_tail_clean : has_char c old_tail = false.
Hypothesis new_tail_clean : has_char c new_tail = false.
Hypothesis new_mismatch : forall t, startswith old (new +:+ t) = false.

Lemma startswith_clean_head (p t : string) :
  has_char c p = false ->
  startswith p (String c t) = match p with EmptyString => true | _ => false end.
Proof.
  destruct p as [|a p]; simpl; [reflexivity|]. intros H.
  apply orb_false_iff in H as [H _].
  rewrite Ascii.eqb_sym, H. reflexivity.
Qed.

Lemma startswith_replace_first (p s : string) :
  has_char c p = false ->
  startswith p (replace_first old new s) = startswith p s.
Proof.
  revert s. induction p as [|a p IH]; intros s Hp.
  - destruct (replace_first old new s), s; reflexivity.
  - pose proof Hp as Hp'. simpl in Hp'. apply orb_false_iff in Hp' as [Hca Hp'].
    destruct s as [|b s].
    + reflexivity.
    + cbn [replace_first].
      destruct (startswith old (String b s)) eqn:Hsw.
      * assert (b = c) as ->.
        { simpl in Hsw. apply andb_true_iff in Hsw as [Hcb _].
          symmetry. now apply Ascii.eqb_eq. }
        unfold new. simpl. rewrite Ascii.eqb_sym, Hca. reflexivity.
      * simpl. now rewrite IH.
Qed.

Lemma occurrences_clean_prefix (u t : string) :
  has_char c u = false -> occurrences old (u +:+ t) = occurrences old t.
Proof.
  induction u as [|a u IH]; simpl; intros H; [reflexivity|].
  apply orb_false_iff in H as [Hca Hu].
  rewrite Hca. simpl. now apply IH.
Qed.

Lemma occurrences_new (t : string) :
  occurrences old (new +:+ t) = occurrences old t.
Proof.
  unfold new at 1. cbn [String.append occurrences].
  change (String c (new_tail +:+ t)) with (new +:+ t).
  rewrite new_mismatch. simpl. now apply occurrences_clean_prefix.
Qed.

Lemma occurrences_old (t : string) :
  occurrences old (old +:+ t) = S (occurrences old t).
Proof.
  unfold old at 2. cbn [String.append occurrences].
  change (String c (old_tail +:+ t)) with (old +:+ t).
  rewrite startswith_app. simpl. f_equal. now apply occurrences_clean_prefix.
Qed.

Lemma occurrences_replace_first (s : string) :
  occurrences old (replace_first old new s) = Nat.pred (occurrences old s).
Proof.
  induction s as [|b s IH].
  - reflexivity.
  - cbn [replace_first]. destruct (startswith old (String b s)) eqn:Hsw.
    + rewrite (startswith_split _ _ Hsw) at 2.
      rewrite occurrences_new, occurrences_old. reflexivity.
    + cbn [occurrences]. rewrite Hsw.
      assert (startswith old (String b (replace_first old new s)) = false) as ->.
      { unfold old in *. simpl in *.
        rewrite startswith_replace_first by exact old_tail_clean. exact Hsw. }
      simpl. exact IH.
Qed.

End NoOverlap.

Section OldNew.
Import PatchPyprojectReadme.

Lemma OLD_occurrences_replace (s : string) :
  occurrences OLD (replace_first OLD NEW s) = Nat.pred (occurrences OLD s).
Proof.
  apply (occurrences_replace_first "r"%char); try reflexivity.
Qed.

End OldNew.

(** ** Line endings: what text mode does to the file *)

Section Newlines.
Import PatchPyprojectReadme.

Lemma has_char_app (c : ascii) (a b : string) :
  has_char c (a +:+ b) = has_char c a || has_char c b.
Proof.
  induction a as [|x a IH]; simpl; [reflexivity|].
  now rewrite IH, orb_assoc.
Qed.

Lemma has_char_drop (c : ascii) (n : nat) (s : string) :
  has_char c s = false -> has_char c (drop n s) = false.
Proof.
  revert s. induction n as [|n IH]; intros [|x s]; simpl; auto.
  intros H. apply orb_false_iff in H as [_ H]. now apply IH.
Qed.

Lemma replace_first_keeps_out (c : ascii) (old new s : string) :
  has_char c new = false -> has_char c s = false ->
  has_char c (replace_first old new s) = false.
Proof.
  intros Hnew. induction s as [|x s IH]; intros Hs.
  - simpl. destruct (startswith old ""); [|reflexivity].
    rewrite has_char_app, Hnew. simpl. now apply has_char_drop.
  - cbn [replace_first]. destruct (startswith old (String x s)).
    + rewrite has_char_app, Hnew. simpl. now apply has_char_drop.
    + simpl in *. apply orb_false_iff in Hs as [Hx Hs].
      now rewrite Hx, IH.
Qed.

Lemma startswith_head_absent (c : ascii) (q t : string) :
  has_char c q = false -> q <> "" -> startswith q (String c t) = false.
Proof.
  destruct q as [|a q]; [congruence|]. cbn [has_char startswith]. intros H _.
  apply orb_false_iff in H as [H _]. now rewrite Ascii.eqb_sym, H.
Qed.

(** Patterns without CR and LF are found at the same places before and
    after the translation of line endings. *)
Lemma startswith_universal_newlines (q s : string) :
  has_char CR q = false -> has_char LF q = false ->
  startswith q (universal_newlines_from false s) = startswith q s.
Proof.
  revert s. induction q as [|a q IH]; intros s Hcr Hlf.
  - reflexivity.
  - cbn [has_char] in Hcr, Hlf.
    apply orb_false_iff in Hcr as [Hcr Hcr'].
    apply orb_false_iff in Hlf as [Hlf Hlf'].
    destruct s as [|c s]; [reflexivity|].
    cbn [universal_newlines_from].
    destruct (Ascii.eqb c CR) eqn:Ec.
    { apply Ascii.eqb_eq in Ec. subst c. cbn [startswith].
      rewrite (Ascii.eqb_sym a LF), Hlf, (Ascii.eqb_sym a CR), Hcr. reflexivity. }
    destruct (Ascii.eqb c LF) eqn:El.
    { apply Ascii.eqb_eq in El. subst c. cbn [startswith].
      rewrite (Ascii.eqb_sym a LF), Hlf. reflexivity. }
    cbn [startswith]. now rewrite IH.
Qed.

Lemma occurrences_universal_newlines (q : string) (b : bool) (s : string) :
  has_char CR q = false -> has_char LF q = false -> q <> "" ->
  occurrences q (universal_newlines_from b s) = occurrences q s.
Proof.
  intros Hcr Hlf Hq. revert b. induction s as [|c s IH]; intros b; [reflexivity|].
  cbn [universal_newlines_from].
  destruct (Ascii.eqb c CR) eqn:Ec.
  { apply Ascii.eqb_eq in Ec. subst c. cbn [occurrences].
    rewrite (startswith_head_absent LF), (startswith_head_absent CR) by assumption.
    now rewrite IH. }
  destruct (Ascii.eqb c LF) eqn:El.
  { apply Ascii.eqb_eq in El. subst c. destruct b; cbn [occurrences];
      rewrite !(startswith_head_absent LF) by assumption; now rewrite IH. }
  cbn [occurrences]. rewrite IH. f_equal.
  destruct q as [|a q]; [congruence|]. cbn [has_char startswith] in *.
  apply orb_false_iff in Hcr as [_ Hcr]. apply orb_false_iff in Hlf as [_ Hlf].
  now rewrite startswith_universal_newlines.
Qed.

Lemma contains_universal_newlines (q s : string) :
  has_char CR q = false -> has_char LF q = false -> q <> "" ->
  contains q (universal_newlines s) = contains q s.
Proof.
  intros. unfold universal_newlines.
  now rewrite !contains_occurrences, occurrences_universal_newlines.
Qed.

Lemma startswith_translate_newlines (p : Platform) (q s : string) :
  has_char CR q = false -> has_char LF q = false ->
  startswith q (translate_newlines (linesep p) s) = startswith q s.
Proof.
  revert s. induction q as [|a q IH]; intros s Hcr Hlf.
  - reflexivity.
  - cbn [has_char] in Hcr, Hlf.
    apply orb_false_iff in Hcr as [Hcr Hcr'].
    apply orb_false_iff in Hlf as [Hlf Hlf'].
    destruct s as [|c s]; [reflexivity|].
    cbn [translate_newlines].
    destruct (Ascii.eqb c LF) eqn:El.
    { apply Ascii.eqb_eq in El. subst c.
      destruct p; cbn [linesep String.append startswith];
        rewrite ?(Ascii.eqb_sym a LF), ?(Ascii.eqb_sym a CR), ?Hlf, ?Hcr; reflexivity. }
    cbn [startswith]. now rewrite IH.
Qed.

Lemma occurrences_translate_newlines (p : Platform) (q s : string) :
  has_char CR q = false -> has_char LF q = false -> q <> "" ->
  occurrences q (translate_newlines (linesep p) s) = occurrences q s.
Proof.
  intros Hcr Hlf Hq. induction s as [|c s IH]; [reflexivity|].
  cbn [translate_newlines].
  destruct (Ascii.eqb c LF) eqn:El.
  { apply Ascii.eqb_eq in El. subst c.
    destruct p; cbn [linesep String.append occurrences] in *;
      rewrite ?(startswith_head_absent LF), ?(startswith_head_absent CR) by assumption;
      now rewrite IH. }
  cbn [occurrences]. rewrite IH. f_equal.
  destruct q as [|a q]; [congruence|]. cbn [has_char startswith] in *.
  apply orb_false_iff in Hcr as [_ Hcr]. apply orb_false_iff in Hlf as [_ Hlf].
  now rewrite startswith_translate_newlines.
Qed.

Lemma contains_translate_newlines (p : Platform) (q s : string) :
  has_char CR q = false -> has_char LF q = false -> q <> "" ->
  contains q (translate_newlines (linesep p) s) = contains q s.
Proof.
  intros. now rewrite !contains_occurrences, occurrences_translate_newlines.
Qed.

(** What was written is read back as it was, on either platform. *)
Lemma universal_translate_newlines (p : Platform) (s : string) :
  has_char CR s = false ->
  universal_newlines (translate_newlines (linesep p) s) = s.
Proof.
  unfold universal_newlines.
  induction s as [|c s IH]; [reflexivity|]. cbn [has_char translate_newlines]. intros H.
  apply orb_false_iff in H as [Hc Hs]. specialize (IH Hs).
  destruct (Ascii.eqb c LF) eqn:El.
  - apply Ascii.eqb_eq in El. subst c.
    destruct p; cbn [linesep String.append universal_newlines_from] in *;
      change (Ascii.eqb CR CR) with true; change (Ascii.eqb LF CR) with false;
      change (Ascii.eqb LF LF) with true; cbn iota; now rewrite IH.
  - cbn [universal_newlines_from]. rewrite (Ascii.eqb_sym c CR), Hc, El. now rewrite IH.
Qed.

Lemma translate_newlines_posix (s : string) :
  translate_newlines (linesep Posix) s = s.
Proof.
  induction s as [|c s IH]; [reflexivity|]. cbn [translate_newlines].
  destruct (Ascii.eqb c LF) eqn:El; cbn [linesep String.append] in *; rewrite IH;
    [|reflexivity].
  apply Ascii.eqb_eq in El. now subst c.
Qed.

Lemma universal_newlines_no_cr (s : string) :
  has_char CR s = false -> universal_newlines s = s.
Proof.
  intros H. rewrite <- (translate_newlines_posix s) at 1.
  now apply universal_translate_newlines.
Qed.

Lemma universal_newlines_from_clean (b : bool) (s : string) :
  has_char CR (universal_newlines_from b s) = false.
Proof.
  revert b. induction s as [|c s IH]; intros b; [reflexivity|].
  cbn [universal_newlines_from].
  destruct (Ascii.eqb c CR) eqn:Ec.
  { cbn [has_char]. change (Ascii.eqb CR LF) with false. apply IH. }
  destruct (Ascii.eqb c LF) eqn:El.
  { destruct b; cbn [has_char]; [|change (Ascii.eqb CR LF) with false]; apply IH. }
  cbn [has_char]. now rewrite Ascii.eqb_sym, Ec, IH.
Qed.

Lemma take_prefix (n : nat) (s : string) :
  exists rest, s = take n s +:+ rest.
Proof.
  revert s. induction n as [|n IH]; intros s.
  - exists s. reflexivity.
  - destruct s as [|c s]; [exists ""; reflexivity|].
    destruct (IH s) as [rest Hr]. exists rest. simpl. now rewrite <- Hr.
Qed.

Lemma take_length (n : nat) (s : string) :
  (String.length (take n s) <= n)%nat.
Proof.
  revert s. induction n as [|n IH]; intros [|c s]; simpl; try lia.
  specialize (IH s). lia.
Qed.

End Newlines.

(** ** The patch script *)

Section PatchScript.
Import Py PatchPyprojectReadme.

Lemma OLD_in_text (raw : string) :
  contains OLD (universal_newlines raw) = contains OLD raw.
Proof. apply contains_universal_newlines; [reflexivity | reflexivity | discriminate]. Qed.

Lemma NEW_in_text (raw : string) :
  contains NEW (universal_newlines raw) = contains NEW raw.
Proof. apply contains_universal_newlines; [reflexivity | reflexivity | discriminate]. Qed.

(** The text the script writes has no CR before the line separators are put
    in, so it is read back as it was written. *)
Lemma replaced_text_read_back (p : Platform) (raw : string) :
  universal_newlines
    (translate_newlines (linesep p) (replace_first OLD NEW (universal_newlines raw)))
  = replace_first OLD NEW (universal_newlines raw).
Proof.
  apply universal_translate_newlines, replace_first_keeps_out; [reflexivity|].
  apply universal_newlines_from_clean.
Qed.

Lemma main_patched (io : Faults) (raw : string) :
  read_fault io = None -> open_fault io = None -> write_fault io = None ->
  contains OLD raw = true ->
  main io (Some raw)
  = mkRun (Some (translate_newlines (linesep (platform io))
                   (replace_first OLD NEW (universal_newlines raw))))
          [] (Returned 0).
Proof.
  intros Hr Ho Hw H. unfold main, read_file, write_file.
  rewrite Hr, Ho, Hw, OLD_in_text, H. reflexivity.
Qed.

Lemma main_no_faults_patched (raw : string) :
  contains OLD raw = true ->
  main no_faults (Some raw)
  = mkRun (Some (replace_first OLD NEW (universal_newlines raw))) [] (Returned 0).
Proof.
  intros H. rewrite main_patched by (reflexivity || exact H).
  cbn [platform no_faults]. now rewrite translate_newlines_posix.
Qed.

(** C2 as stated fails on a file with CR LF line endings: the file written
    has LF line endings, so the characters around the replaced line are not
    all kept. *)
Lemma main_rewrites_line_endings :
  contains OLD crlf_pyproject = true
  /\ main no_faults (Some crlf_pyproject) = mkRun (Some patched_pyproject) [] (Returned 0)
  /\ ~ (exists pre post,
         crlf_pyproject = pre +:+ OLD +:+ post
         /\ main no_faults (Some crlf_pyproject)
            = mkRun (Some (pre +:+ NEW +:+ post)) [] (Returned 0)).
Proof.
  split; [reflexivity|]. split; [reflexivity|].
  intros (pre & post & E & F).
  assert (has_char CR (pre +:+ NEW +:+ post) = false) as Hout.
  { change (main no_faults (Some crlf_pyproject))
      with (mkRun (Some patched_pyproject) [] (Returned 0)) in F.
    assert (patched_pyproject = pre +:+ NEW +:+ post) as <- by congruence.
    reflexivity. }
  assert (has_char CR (pre +:+ OLD +:+ post) = true) as Hin
    by (rewrite <- E; reflexivity).
  rewrite !has_char_app in Hout, Hin.
  apply orb_false_iff in Hout as [Hpre Hout]. apply orb_false_iff in Hout as [_ Hpost].
  rewrite Hpre, Hpost in Hin. discriminate.
Qed.

(** C2, amended: on a file that can be read and written and contains the
    old readme line, [main] replaces the leftmost occurrence of that line in
    the text read (line endings as LF) by the new one, keeps the text before
    and after it, writes the result with the line separator of the platform
    and returns 0; when the file has no CR and LF is the line separator,
    every other character of the file is kept. *)
Theorem main_replaces_first_occurrence (io : Faults) (raw : string) :
  read_fault io = None -> open_fault io = None -> write_fault io = None ->
  contains OLD raw = true ->
  exists pre post,
    universal_newlines raw = pre +:+ OLD +:+ post
    /\ (forall pre' post', universal_newlines raw = pre' +:+ OLD +:+ post' ->
         (String.length pre <= String.length pre')%nat)
    /\ main io (Some raw)
       = mkRun (Some (translate_newlines (linesep (platform io)) (pre +:+ NEW +:+ post)))
               [] (Returned 0)
    /\ (has_char CR raw = false -> platform io = Posix ->
        raw = pre +:+ OLD +:+ post
        /\ main io (Some raw) = mkRun (Some (pre +:+ NEW +:+ post)) [] (Returned 0)).
Proof.
  intros Hr Ho Hw H.
  assert (contains OLD (universal_newlines raw) = true) as H'
    by now rewrite OLD_in_text.
  destruct (replace_first_spec OLD NEW _ H') as (pre & post & Hs & Hrep & Hmin).
  exists pre, post. split; [exact Hs|]. split; [exact Hmin|].
  rewrite main_patched by assumption. rewrite Hrep.
  split; [reflexivity|].
  intros Hcr Hp. rewrite Hp.
  rewrite (universal_newlines_no_cr raw Hcr) in Hs.
  split; [exact Hs|]. cbn [linesep]. fold (linesep Posix).
  now rewrite translate_newlines_posix.
Qed.

Lemma main_replaces_first_occurrence_witness :
  (read_fault no_faults = None /\ open_fault no_faults = None
   /\ write_fault no_faults = None /\ contains OLD generated_pyproject = true)
  /\ exists pre post,
      universal_newlines generated_pyproject = pre +:+ OLD +:+ post
      /\ (forall pre' post',
           universal_newlines generated_pyproject = pre' +:+ OLD +:+ post' ->
           (String.length pre <= String.length pre')%nat)
      /\ main no_faults (Some generated_pyproject)
         = mkRun (Some (translate_newlines (linesep (platform no_faults))
                          (pre +:+ NEW +:+ post)))
                 [] (Returned 0)
      /\ (has_char CR generated_pyproject = false -> platform no_faults = Posix ->
          generated_pyproject = pre +:+ OLD +:+ post
          /\ main no_faults (Some generated_pyproject)
             = mkRun (Some (pre +:+ NEW +:+ post)) [] (Returned 0)).
Proof.
  split; [repeat split|].
  apply (main_replaces_first_occurrence no_faults generated_pyproject); reflexivity.
Defined.

Example main_generated_pyproject :
  file_after (main no_faults (Some generated_pyproject))
  = Some ("[project]" +:+ String "010"%char (NEW +:+ String "010"%char "")).
Proof. reflexivity. Qed.

Example main_crlf_on_windows :
  file_after (main (mkFaults None None None 0 Windows) (Some crlf_pyproject))
  = Some ("[project]" +:+ String CR (String LF (NEW +:+ String CR (String LF "")))).
Proof. reflexivity. Qed.

(** C3 as stated fails twice: a write that fails after the file was opened
    returns 1 with the file emptied, and a read that fails with an error
    other than OSError does not return at all. *)
Lemma main_failure_modifies_or_raises :
  (outcome (main disk_full (Some generated_pyproject)) = Returned 1
   /\ file_after (main disk_full (Some generated_pyproject)) = Some ""
   /\ file_after (main disk_full (Some generated_pyproject)) <> Some generated_pyproject)
  /\ outcome (main not_utf8 (Some generated_pyproject)) <> Returned 1.
Proof.
  split; [split; [reflexivity | split; [reflexivity | discriminate]] | discriminate].
Qed.

(** C3, amended: every OSError is turned into return code 1, and the file is
    left alone unless the failure comes after it was opened for writing; a
    write that fails then leaves in the file what had been written of the
    new text, an initial part of it. *)
Theorem main_failure_modes (io : Faults) (file : option string) :
  (forall e, read_file io file = inl e -> isinstance_OSError e = true ->
     outcome (main io file) = Returned 1 /\ file_after (main io file) = file)
  /\ (forall e, read_file io file = inl e -> isinstance_OSError e = false ->
       outcome (main io file) = Raised e /\ file_after (main io file) = file)
  /\ (forall content, read_file io file = inr content ->
       contains OLD content = false -> contains NEW content = false ->
       outcome (main io file) = Returned 1 /\ file_after (main io file) = file)
  /\ (forall content, read_file io file = inr content ->
       contains OLD content = false -> contains NEW content = true ->
       outcome (main io file) = Returned 0 /\ file_after (main io file) = file)
  /\ (forall content e, read_file io file = inr content ->
       contains OLD content = true ->
       open_fault io = Some e -> isinstance_OSError e = true ->
       outcome (main io file) = Returned 1 /\ file_after (main io file) = file)
  /\ (forall content e, read_file io file = inr content ->
       contains OLD content = true ->
       open_fault io = None -> write_fault io = Some e -> isinstance_OSError e = true ->
       outcome (main io file) = Returned 1
       /\ exists written rest,
            file_after (main io file) = Some written
            /\ String.length written <= flushed io
            /\ translate_newlines (linesep (platform io)) (replace_first OLD NEW content)
               = written +:+ rest)%nat
  /\ (outcome (main io file) = Returned 1 -> file_after (main io file) <> file ->
       exists content e, read_file io file = inr content
         /\ contains OLD content = true
         /\ open_fault io = None /\ write_fault io = Some e).
Proof.
  unfold main, write_file.
  repeat apply conj.
  - intros e -> ->. split; reflexivity.
  - intros e -> ->. split; reflexivity.
  - intros content -> -> ->. split; reflexivity.
  - intros content -> -> ->. split; reflexivity.
  - intros content e -> -> -> ->. split; reflexivity.
  - intros content e -> -> -> -> ->. split; [reflexivity|]. cbn [file_after].
    destruct (take_prefix (flushed io)
                (translate_newlines (linesep (platform io))
                   (replace_first OLD NEW content))) as [rest Hrest].
    eexists _, rest. split; [reflexivity|]. split; [apply take_length | exact Hrest].
  - destruct (read_file io file) as [e|content] eqn:Hr.
    + destruct (isinstance_OSError e); simpl; intros _ Hne; now elim Hne.
    + destruct (contains OLD content) eqn:Hc; simpl.
      * destruct (open_fault io) as [e|] eqn:Ho.
        { destruct (isinstance_OSError e); simpl; intros _ Hne; now elim Hne. }
        destruct (write_fault io) as [e|] eqn:Hw.
        { intros _ _. exists content, e. auto. }
        simpl. discriminate.
      * destruct (contains NEW content); simpl; intros _ Hne; now elim Hne.
Qed.

Lemma main_failure_modes_witness :
  outcome (main file_too_large (Some generated_pyproject)) = Returned 1
  /\ exists written rest,
      file_after (main file_too_large (Some generated_pyproject)) = Some written
      /\ (String.length written <= flushed file_too_large)%nat
      /\ translate_newlines (linesep (platform file_too_large))
           (replace_first OLD NEW generated_pyproject)
         = written +:+ rest.
Proof.
  destruct (main_failure_modes file_too_large (Some generated_pyproject))
    as (_ & _ & _ & _ & _ & Hw & _).
  apply (Hw generated_pyproject (mkExc OSError "[Errno 27] File too large"));
    reflexivity.
Defined.

Example main_file_too_large :
  file_after (main file_too_large (Some generated_pyproject))
  = Some ("[project]" +:+ String LF "").
Proof. reflexivity. Qed.

Lemma main_already_patched (io : Faults) (content : string) :
  read_fault io = None ->
  contains OLD content = false -> contains NEW content = true ->
  main io (Some content) = mkRun (Some content) [] (Returned 0).
Proof.
  intros Hr Ho Hn. unfold main, read_file.
  now rewrite Hr, OLD_in_text, NEW_in_text, Ho, Hn.
Qed.

Lemma replaced_is_patched (content : string) :
  (occurrences OLD content <= 1)%nat ->
  contains OLD content = true ->
  contains OLD (replace_first OLD NEW content) = false
  /\ contains NEW (replace_first OLD NEW content) = true.
Proof.
  intros Hocc Hc. split.
  - rewrite contains_occurrences, OLD_occurrences_replace.
    destruct (occurrences OLD content) as [|[|n]]; [reflexivity | reflexivity | lia].
  - destruct (replace_first_spec OLD NEW content Hc) as (pre & post & _ & -> & _).
    apply contains_app.
Qed.

Lemma OLD_occurrences_text (raw : string) :
  occurrences OLD (universal_newlines raw) = occurrences OLD raw.
Proof.
  apply occurrences_universal_newlines; [reflexivity | reflexivity | discriminate].
Qed.

(** C9: when the content has at most one occurrence of the old readme line
    and a first run returned 0, a second run that can read the file returns
    0 and leaves the file as the first run left it. *)
Theorem main_idempotent (io1 io2 : Faults) (content : string) :
  (occurrences OLD content <= 1)%nat ->
  outcome (main io1 (Some content)) = Returned 0 ->
  read_fault io2 = None ->
  outcome (main io2 (file_after (main io1 (Some content)))) = Returned 0
  /\ file_after (main io2 (file_after (main io1 (Some content))))
     = file_after (main io1 (Some content)).
Proof.
  intros Hocc Hfirst Hread.
  assert (exists c', file_after (main io1 (Some content)) = Some c'
                     /\ contains OLD c' = false /\ contains NEW c' = true)
    as (c' & -> & Ho & Hn).
  { unfold main, read_file, write_file in *.
    destruct (read_fault io1) as [e|].
    { destruct (isinstance_OSError e); discriminate. }
    rewrite OLD_in_text, NEW_in_text in *.
    destruct (contains OLD content) eqn:Hc; simpl in *.
    - destruct (open_fault io1) as [e|].
      { destruct (isinstance_OSError e); discriminate. }
      destruct (write_fault io1) as [e|].
      { destruct (isinstance_OSError e); discriminate. }
      eexists. split; [reflexivity|].
      rewrite !contains_translate_newlines by (reflexivity || discriminate).
      apply replaced_is_patched.
      + now rewrite OLD_occurrences_text.
      + now rewrite OLD_in_text.
    - destruct (contains NEW content) eqn:Hn; [|discriminate].
      exists content. auto. }
  rewrite main_already_patched by assumption. split; reflexivity.
Qed.

Lemma main_idempotent_witness :
  ((occurrences OLD generated_pyproject <= 1)%nat
   /\ outcome (main no_faults (Some generated_pyproject)) = Returned 0
   /\ read_fault no_faults = None)
  /\ outcome (main no_faults (file_after (main no_faults (Some generated_pyproject))))
     = Returned 0
  /\ file_after (main no_faults (file_after (main no_faults (Some generated_pyproject))))
     = file_after (main no_faults (Some generated_pyproject)).
Proof.
  split.
  - split; [vm_compute; lia | split; reflexivity].
  - apply (main_idempotent no_faults no_faults generated_pyproject);
      [vm_compute; lia | reflexivity | reflexivity].
Defined.

End PatchScript.

(** ** The error classes *)

Section ErrorClasses.
Import Py Errors.

(** C1 as stated fails for RateLimitedError: its constructor has no
    parameter for the response, so instances built while handling different
    responses are the same and no attribute can give the response back. *)
Lemma RateLimitedError_drops_response :
  ~ stores_raw_response (fun d (_ : Response) => RateLimitedError_init d).
Proof.
  intros [get Hget].
  pose proof (Hget no_message too_many_requests) as H1.
  pose proof (Hget no_message server_error) as H2.
  simpl in H1, H2. rewrite H1 in H2. discriminate.
Qed.

(** C1, amended: a NotFoundError keeps the raw response and the parsed data
    it is constructed with; a RateLimitedError is constructed from the parsed
    data alone and keeps nothing else. *)
Theorem error_classes_store :
  (forall d r b,
     raw_response (base (NotFoundError_init d r b)) = r
     /\ data (NotFoundError_init d r b) = d)
  /\ (forall b, stores_raw_response (fun d r => NotFoundError_init d r b))
  /\ (forall b, stores_data (fun d r => NotFoundError_init d r b))
  /\ (forall d, rl_data (RateLimitedError_init d) = d)
  /\ (forall e : RateLimitedError, e = RateLimitedError_init (rl_data e)).
Proof.
  repeat apply conj.
  - intros d r b. split; reflexivity.
  - intros b. exists (fun e => raw_response (base e)). reflexivity.
  - intros b. exists data. reflexivity.
  - reflexivity.
  - intros [d]. reflexivity.
Qed.

Lemma str_or_empty (x y : string) :
  str_or x y = if String.eqb x "" then y else x.
Proof. destruct x; reflexivity. Qed.

(** C8: the message of a NotFoundError is [str(data.message)] unless that is
    the empty string, and only then the fallback, which is the body when it
    is a non-empty string and the text of the response otherwise; a [None]
    message therefore gives the message "None". *)
Theorem NotFoundError_message_fallback
  (d : NotFoundErrorData) (r : Response) (b : option string) :
  err_message (base (NotFoundError_init d r b)) = NotFoundError_message d r b
  /\ NotFoundError_message d r b
     = (if String.eqb (str_of_opt (message d)) ""
        then NotFoundError_fallback r b
        else str_of_opt (message d))
  /\ NotFoundError_fallback r b
     = match b with
       | Some s => if String.eqb s "" then text r else s
       | None => text r
       end
  /\ (forall ap,
       NotFoundError_message (mkNotFoundErrorData None ap) r b = "None"
       /\ err_message (base (NotFoundError_init (mkNotFoundErrorData None ap) r b))
          = "None").
Proof.
  repeat apply conj.
  - reflexivity.
  - unfold NotFoundError_message. apply str_or_empty.
  - destruct b as [[|a s]|]; reflexivity.
  - intros ap. split; reflexivity.
Qed.

Example NotFoundError_empty_message_uses_body :
  err_message (base (NotFoundError_init (mkNotFoundErrorData (Some "") None)
                       (mkResponse 404 "not found") (Some "gone")))
  = "gone".
Proof. reflexivity. Qed.

Example NotFoundError_empty_message_empty_body :
  err_message (base (NotFoundError_init (mkNotFoundErrorData (Some "") None)
                       (mkResponse 404 "not found") (Some "")))
  = "not found".
Proof. reflexivity. Qed.

End ErrorClasses.

(** ** The model classes *)

Section ModelClasses.
Import Py Models.

Variable ext_valid : string -> PyVal -> bool.

Lemma collect_errors (rs : list (FieldError + (string * PyVal))) (e : FieldError) :
  In (inl e) rs -> In e (fst (collect rs)).
Proof.
  induction rs as [|r rs IH]; simpl; [tauto|].
  intros [-> | Hin].
  - destruct (collect rs). simpl. now left.
  - specialize (IH Hin). destruct (collect rs) as [errs attrs].
    destruct r; simpl in *; auto.
Qed.

(** A field declared without a default cannot be left out. *)
Lemma construct_required (cls : ModelClass) (kwargs : gmap string PyVal) (f : Field) :
  In f (fields cls) ->
  field_default f = None ->
  kwargs !! field_name f = None ->
  exists errs, construct ext_valid cls kwargs = inl errs
               /\ In (Missing (field_name f)) errs.
Proof.
  intros Hin Hdef Hk.
  assert (In (Missing (field_name f))
             (fst (collect (map (validate_field ext_valid kwargs) (fields cls))))) as H.
  { apply collect_errors.
    replace (inl (Missing (field_name f)))
      with (validate_field ext_valid kwargs f)
      by (unfold validate_field; now rewrite Hk, Hdef).
    now apply in_map. }
  unfold construct.
  destruct (collect _) as [[|e errs] attrs]; simpl in H; [tauto|].
  eexists. split; [reflexivity | exact H].
Qed.

(** C7: AWSKinesisConfig cannot be built without [stream_name] or without
    [region]; built from these two alone, its [endpoint] and
    [partition_key_template] are None; DestinationUpdateAWSSQS and
    DestinationUpdateHookdeck built from no argument have [topics], [config]
    and [credentials] all None. *)
Theorem models_required_optional :
  (forall kwargs : gmap string PyVal,
     kwargs !! "stream_name" = None ->
     exists errs, construct ext_valid AWSKinesisConfig kwargs = inl errs
                  /\ In (Missing "stream_name") errs)
  /\ (forall kwargs : gmap string PyVal,
       kwargs !! "region" = None ->
       exists errs, construct ext_valid AWSKinesisConfig kwargs = inl errs
                    /\ In (Missing "region") errs)
  /\ (forall s r : string,
       construct ext_valid AWSKinesisConfig
         (<["stream_name" := VStr s]> (<["region" := VStr r]> ∅))
       = inr (VObj "AWSKinesisConfig"
                [("stream_name", VStr s); ("region", VStr r);
                 ("endpoint", VNone); ("partition_key_template", VNone)]))
  /\ construct ext_valid DestinationUpdateAWSSQS ∅
     = inr (VObj "DestinationUpdateAWSSQS"
              [("topics", VNone); ("config", VNone); ("credentials", VNone)])
  /\ construct ext_valid DestinationUpdateHookdeck ∅
     = inr (VObj "DestinationUpdateHookdeck"
              [("topics", VNone); ("config", VNone); ("credentials", VNone)]).
Proof.
  repeat apply conj.
  - intros kwargs Hk.
    apply (construct_required AWSKinesisConfig kwargs
             (mkField "stream_name" TStr None None)); simpl; auto.
  - intros kwargs Hk.
    apply (construct_required AWSKinesisConfig kwargs
             (mkField "region" TStr None None)); simpl; auto.
  - intros s r. unfold construct, validate_field.
    cbn [map fields AWSKinesisConfig field_name field_type field_default].
    rewrite lookup_insert_eq.
    rewrite lookup_insert_ne by discriminate. rewrite lookup_insert_eq.
    rewrite !lookup_insert_ne by discriminate. rewrite !lookup_empty.
    reflexivity.
  - reflexivity.
  - reflexivity.
Qed.

(** C10: GetTenantRequest and GetTenantGlobals can both be built from no
    argument, and their [tenant_id] is then None: the documented requirement
    under AdminApiKey authentication is not checked by the model. *)
Theorem tenant_id_not_enforced :
  construct ext_valid GetTenantRequest ∅
  = inr (VObj "GetTenantRequest" [("tenant_id", VNone)])
  /\ construct ext_valid GetTenantGlobals ∅
     = inr (VObj "GetTenantGlobals" [("tenant_id", VNone)])
  /\ field_default <$> fields GetTenantRequest = [Some VNone]
  /\ field_default <$> fields GetTenantGlobals = [Some VNone].
Proof. repeat apply conj; reflexivity. Qed.

End ModelClasses.

Lemma models_required_optional_witness :
  (∅ : gmap string Py.PyVal) !! "stream_name" = None
  /\ exists errs,
      Models.construct (fun _ _ => true) Models.AWSKinesisConfig ∅ = inl errs
      /\ In (Models.Missing "stream_name") errs.
Proof.
  split; [reflexivity|].
  apply (proj1 (models_required_optional (fun _ _ => true)) ∅). reflexivity.
Defined.

(** ** The authentication example *)

Section Example.
Import Py ExampleAuth.

Ltac run_script :=
  cbv [with_jwt with_admin_api_key with_Outpost try_except bind call print
       print_val ret trace result fst snd].

Lemma with_jwt_returns (srv : Server) (outpost : Outpost) (jwt : PyVal) :
  result (with_jwt srv outpost jwt) = inr tt.
Proof.
  run_script. destruct (srv outpost (DestinationsList None)); reflexivity.
Qed.

Lemma with_jwt_trace (srv : Server) (outpost : Outpost) (jwt : PyVal) :
  trace (with_jwt srv outpost jwt)
  = [Print "--- Running with Tenant JWT ---"; Call outpost (DestinationsList None)]
    ++ match srv outpost (DestinationsList None) with
       | inl e => [Print ("Error listing destinations with JWT: " +:+ exc_str e)]
       | inr v => [Print "Destinations listed successfully using JWT:"; PrintVal v]
       end.
Proof.
  run_script. destruct (srv outpost (DestinationsList None)); reflexivity.
Qed.

Lemma optional_str_Security (token : PyVal) :
  Security_init VNone token
  = if optional_str token then inr (mkSecurity VNone token)
    else inl (validation_error ["tenant_jwt"]).
Proof. destruct token; reflexivity. Qed.

Lemma with_admin_api_key_cases (srv : Server) (outpost : Outpost) (tenant_id : string) :
  with_admin_api_key srv outpost tenant_id
  = (([Print "--- Running with Admin API Key ---"; Call outpost HealthCheck]
      ++ match srv outpost HealthCheck with
         | inl e => [Print ("Error during admin operations: " +:+ exc_str e)]
         | inr h =>
           [Print "Health check result:"; PrintVal h;
            Call outpost (DestinationsList (Some tenant_id))]
           ++ match srv outpost (DestinationsList (Some tenant_id)) with
              | inl e => [Print ("Error during admin operations: " +:+ exc_str e)]
              | inr d =>
                [Print ("Destinations listed successfully using Admin Key for tenant "
                        +:+ tenant_id +:+ ":");
                 PrintVal d; Call outpost (TenantsGetToken tenant_id)]
                ++ match srv outpost (TenantsGetToken tenant_id) with
                   | inl e => [Print ("Error during admin operations: " +:+ exc_str e)]
                   | inr t =>
                     [Print ("Tenant token obtained for tenant " +:+ tenant_id +:+ ":");
                      PrintVal t]
                     ++ (if token_obtained t
                         then
                           if optional_str (attr t "token")
                           then [NewOutpost (jwt_client outpost t)]
                                ++ trace (with_jwt srv (jwt_client outpost t)
                                            (attr t "token"))
                                ++ [CloseOutpost (jwt_client outpost t)]
                           else [Print ("Error during admin operations: "
                                        +:+ exc_str (validation_error ["tenant_jwt"]))]
                         else [Print "Could not obtain tenant token."])
                   end
              end
         end)%list,
     inr tt).
Proof.
  unfold with_admin_api_key at 1.
  cbv [with_Outpost try_except bind call print print_val ret construct_or_raise].
  destruct (srv outpost HealthCheck) as [e|h]; [reflexivity|].
  destruct (srv outpost (DestinationsList (Some tenant_id))) as [e|d]; [reflexivity|].
  destruct (srv outpost (TenantsGetToken tenant_id)) as [e|t]; [reflexivity|].
  destruct (token_obtained t); [|reflexivity].
  rewrite optional_str_Security.
  destruct (optional_str (attr t "token")); [|reflexivity].
  fold (jwt_client outpost t).
  pose proof (with_jwt_returns srv (jwt_client outpost t) (attr t "token")) as Hr.
  unfold trace, result in *.
  destruct (with_jwt srv (jwt_client outpost t) (attr t "token")) as [tr r].
  simpl in Hr. subst r. reflexivity.
Qed.

(** C4: an exception raised by an SDK call inside [with_jwt] or inside
    [with_admin_api_key] is caught there and reported by a printed line that
    contains it, and both functions return normally whatever the calls do. *)
Theorem example_catches_and_prints
  (srv : Server) (outpost : Outpost) (jwt : PyVal) (tenant_id : string) :
  result (with_jwt srv outpost jwt) = inr tt
  /\ (forall e, srv outpost (DestinationsList None) = inl e ->
       trace (with_jwt srv outpost jwt)
       = [Print "--- Running with Tenant JWT ---";
          Call outpost (DestinationsList None);
          Print ("Error listing destinations with JWT: " +:+ exc_str e)])
  /\ result (with_admin_api_key srv outpost tenant_id) = inr tt
  /\ (forall e, srv outpost HealthCheck = inl e ->
       trace (with_admin_api_key srv outpost tenant_id)
       = [Print "--- Running with Admin API Key ---";
          Call outpost HealthCheck;
          Print ("Error during admin operations: " +:+ exc_str e)])
  /\ (forall h e,
       srv outpost HealthCheck = inr h ->
       srv outpost (DestinationsList (Some tenant_id)) = inl e ->
       trace (with_admin_api_key srv outpost tenant_id)
       = [Print "--- Running with Admin API Key ---";
          Call outpost HealthCheck;
          Print "Health check result:"; PrintVal h;
          Call outpost (DestinationsList (Some tenant_id));
          Print ("Error during admin operations: " +:+ exc_str e)])
  /\ (forall h d e,
       srv outpost HealthCheck = inr h ->
       srv outpost (DestinationsList (Some tenant_id)) = inr d ->
       srv outpost (TenantsGetToken tenant_id) = inl e ->
       trace (with_admin_api_key srv outpost tenant_id)
       = [Print "--- Running with Admin API Key ---";
          Call outpost HealthCheck;
          Print "Health check result:"; PrintVal h;
          Call outpost (DestinationsList (Some tenant_id));
          Print ("Destinations listed successfully using Admin Key for tenant "
                 +:+ tenant_id +:+ ":");
          PrintVal d;
          Call outpost (TenantsGetToken tenant_id);
          Print ("Error during admin operations: " +:+ exc_str e)]).
Proof.
  repeat apply conj.
  - apply with_jwt_returns.
  - intros e He. rewrite with_jwt_trace, He. reflexivity.
  - rewrite with_admin_api_key_cases. reflexivity.
  - intros e He. rewrite with_admin_api_key_cases, He. reflexivity.
  - intros h e Hh He. rewrite with_admin_api_key_cases, Hh, He. reflexivity.
  - intros h d e Hh Hd He. rewrite with_admin_api_key_cases, Hh, Hd, He. reflexivity.
Qed.

Lemma example_catches_and_prints_witness :
  unreachable_server admin_client HealthCheck
  = inl (mkExc (SDKError "ConnectError") "All connection attempts failed")
  /\ trace (with_admin_api_key unreachable_server admin_client "tenant-1")
     = [Print "--- Running with Admin API Key ---";
        Call admin_client HealthCheck;
        Print "Error during admin operations: All connection attempts failed"].
Proof.
  split; [reflexivity|].
  destruct (example_catches_and_prints unreachable_server admin_client VNone "tenant-1")
    as (_ & _ & _ & H & _).
  apply (H (mkExc (SDKError "ConnectError") "All connection attempts failed")).
  reflexivity.
Defined.




Lemma set_value_unset (x : option string) :
  unset_or_empty x -> set_value x = None.
Proof. intros [-> | ->]; reflexivity. Qed.

Lemma set_value_set (x : option string) (v : string) :
  x = Some v -> v <> "" -> set_value x = Some v.
Proof. intros -> Hv. destruct v; [congruence | reflexivity]. Qed.

Lemma run_all_set (srv : Server) (environ dotenv : gmap string string)
  (a t s : string) :
  set_value (getenv (load_dotenv environ dotenv) "ADMIN_API_KEY") = Some a ->
  set_value (getenv (load_dotenv environ dotenv) "TENANT_ID") = Some t ->
  set_value (getenv (load_dotenv environ dotenv) "SERVER_URL") = Some s ->
  run srv environ dotenv
  = (([NewOutpost (mkOutpost (mkSecurity (VStr a) VNone) (s +:+ "/api/v1"))]
      ++ trace (with_admin_api_key srv
                  (mkOutpost (mkSecurity (VStr a) VNone) (s +:+ "/api/v1")) t)
      ++ [CloseOutpost (mkOutpost (mkSecurity (VStr a) VNone) (s +:+ "/api/v1"));
          Print "--- Example finished ---"])%list,
     inr tt).
Proof.
  intros Ha Ht Hs. unfold run. rewrite Ha, Ht, Hs.
  assert (result (with_admin_api_key srv
                    (mkOutpost (mkSecurity (VStr a) VNone) (s +:+ "/api/v1")) t)
          = inr tt) as Hr
    by (rewrite with_admin_api_key_cases; reflexivity).
  unfold with_Outpost, bind, print, trace, result, construct_or_raise in *.
  cbn [Security_init optional_str app].
  destruct (with_admin_api_key srv _ t) as [tr r]. simpl in Hr. subst r.
  simpl. rewrite <- ?app_assoc. reflexivity.
Qed.

(** C6: [run] checks ADMIN_API_KEY, TENANT_ID and SERVER_URL in this order;
    at the first one that is unset or empty it prints the error naming it and
    exits with status 1, and no Outpost client is built; when all three are
    set it builds the client on SERVER_URL followed by "/api/v1". *)
Theorem run_validates_environment
  (srv : Server) (environ dotenv : gmap string string) :
  let env := load_dotenv environ dotenv in
  (unset_or_empty (getenv env "ADMIN_API_KEY") ->
   run srv environ dotenv
   = ([Print "Error: ADMIN_API_KEY not set."], inl (SystemExit 1)))
  /\ (forall a,
       getenv env "ADMIN_API_KEY" = Some a -> a <> "" ->
       unset_or_empty (getenv env "TENANT_ID") ->
       run srv environ dotenv
       = ([Print "Error: TENANT_ID not set."], inl (SystemExit 1)))
  /\ (forall a t,
       getenv env "ADMIN_API_KEY" = Some a -> a <> "" ->
       getenv env "TENANT_ID" = Some t -> t <> "" ->
       unset_or_empty (getenv env "SERVER_URL") ->
       run srv environ dotenv
       = ([Print "Error: SERVER_URL not set."], inl (SystemExit 1)))
  /\ (unset_or_empty (getenv env "ADMIN_API_KEY")
       \/ unset_or_empty (getenv env "TENANT_ID")
       \/ unset_or_empty (getenv env "SERVER_URL") ->
       result (run srv environ dotenv) = inl (SystemExit 1)
       /\ forall c, ~ In (NewOutpost c) (trace (run srv environ dotenv)))
  /\ (forall a t s,
       getenv env "ADMIN_API_KEY" = Some a -> a <> "" ->
       getenv env "TENANT_ID" = Some t -> t <> "" ->
       getenv env "SERVER_URL" = Some s -> s <> "" ->
       result (run srv environ dotenv) = inr tt
       /\ trace (run srv environ dotenv)
          = ([NewOutpost (mkOutpost (mkSecurity (VStr a) VNone) (s +:+ "/api/v1"))]
             ++ trace (with_admin_api_key srv
                         (mkOutpost (mkSecurity (VStr a) VNone) (s +:+ "/api/v1")) t)
             ++ [CloseOutpost (mkOutpost (mkSecurity (VStr a) VNone) (s +:+ "/api/v1"));
                 Print "--- Example finished ---"])%list).
Proof.
  intros env. subst env. repeat apply conj.
  - intros Ha. unfold run. now rewrite (set_value_unset _ Ha).
  - intros a Ha Hane Ht. unfold run.
    now rewrite (set_value_set _ _ Ha Hane), (set_value_unset _ Ht).
  - intros a t Ha Hane Ht Htne Hs. unfold run.
    now rewrite (set_value_set _ _ Ha Hane), (set_value_set _ _ Ht Htne),
      (set_value_unset _ Hs).
  - intros H. unfold run.
    destruct (set_value (getenv _ "ADMIN_API_KEY")) as [a|] eqn:Ea.
    2:{ split; [reflexivity|]. intros c [Hc|[]]. discriminate. }
    destruct (set_value (getenv _ "TENANT_ID")) as [t|] eqn:Et.
    2:{ split; [reflexivity|]. intros c [Hc|[]]. discriminate. }
    destruct (set_value (getenv _ "SERVER_URL")) as [s|] eqn:Es.
    2:{ split; [reflexivity|]. intros c [Hc|[]]. discriminate. }
    exfalso. destruct H as [H|[H|H]]; apply set_value_unset in H; congruence.
  - intros a t s Ha Hane Ht Htne Hs Hsne.
    rewrite (run_all_set srv environ dotenv a t s)
      by (apply set_value_set; assumption).
    split; reflexivity.
Qed.

Lemma run_validates_environment_witness :
  (getenv (load_dotenv {["ADMIN_API_KEY" := "secret"]} {["TENANT_ID" := ""]})
     "ADMIN_API_KEY" = Some "secret"
   /\ "secret" <> ""
   /\ unset_or_empty
        (getenv (load_dotenv {["ADMIN_API_KEY" := "secret"]} {["TENANT_ID" := ""]})
           "TENANT_ID"))
  /\ run healthy_server {["ADMIN_API_KEY" := "secret"]} {["TENANT_ID" := ""]}
     = ([Print "Error: TENANT_ID not set."], inl (SystemExit 1)).
Proof.
  split; [split; [reflexivity | split; [discriminate | right; reflexivity]]|].
  destruct (run_validates_environment healthy_server
              {["ADMIN_API_KEY" := "secret"]} {["TENANT_ID" := ""]})
    as (_ & H & _).
  apply (H "secret"); [reflexivity | discriminate | right; reflexivity].
Defined.

Example run_all_set_example :
  firstn 1 (trace (run healthy_server
                     {["ADMIN_API_KEY" := "secret"; "TENANT_ID" := "tenant-1"]}
                     {["SERVER_URL" := "http://localhost:3333";
                       "TENANT_ID" := "ignored"]}))
  = [NewOutpost (mkOutpost (mkSecurity (VStr "secret") VNone)
                   "http://localhost:3333/api/v1")].
Proof. vm_compute. reflexivity. Qed.

End Example.

(** ** The patch script: further properties of [main] *)

Section PatchScriptMore.
Import Py PatchPyprojectReadme.

Lemma replaced_contains_new (old new s : string) :
  contains old s = true -> contains new (replace_first old new s) = true.
Proof.
  intros H.
  destruct (replace_first_spec old new s H) as (pre & post & _ & -> & _).
  apply contains_app.
Qed.

(** What a run that returns 0 did: it read the file, and either wrote the
    replaced text or found the file already patched. *)
Lemma main_returned_0 (io : Faults) (file : option string) :
  outcome (main io file) = Returned 0 ->
  exists raw,
    file = Some raw
    /\ ((contains OLD raw = true
         /\ file_after (main io file)
            = Some (translate_newlines (linesep (platform io))
                      (replace_first OLD NEW (universal_newlines raw))))
        \/ (contains OLD raw = false /\ contains NEW raw = true
            /\ file_after (main io file) = Some raw)).
Proof.
  unfold main, read_file, write_file.
  destruct (read_fault io) as [e|].
  { destruct (isinstance_OSError e); discriminate. }
  destruct file as [raw|]; [|discriminate].
  rewrite OLD_in_text, NEW_in_text.
  intros H. exists raw. split; [reflexivity|].
  destruct (contains OLD raw) eqn:Hc; simpl in *.
  - left. split; [reflexivity|].
    destruct (open_fault io) as [e|].
    { destruct (isinstance_OSError e); discriminate. }
    destruct (write_fault io) as [e|].
    { destruct (isinstance_OSError e); discriminate. }
    reflexivity.
  - right. destruct (contains NEW raw); [auto | discriminate].
Qed.

(** X1: whenever [main] returns 0, pyproject.toml exists afterwards and
    contains the new readme line. *)
Theorem main_success_has_new_line (io : Faults) (file : option string) :
  outcome (main io file) = Returned 0 ->
  exists content',
    file_after (main io file) = Some content' /\ contains NEW content' = true.
Proof.
  intros H.
  destruct (main_returned_0 io file H) as (content & _ & [(Hc & ->) | (_ & Hn & ->)]).
  - eexists. split; [reflexivity|].
    rewrite contains_translate_newlines by (reflexivity || discriminate).
    apply replaced_contains_new. now rewrite OLD_in_text.
  - eexists. split; [reflexivity | exact Hn].
Qed.

Lemma main_success_has_new_line_witness :
  outcome (main no_faults (Some generated_pyproject)) = Returned 0
  /\ exists content',
      file_after (main no_faults (Some generated_pyproject)) = Some content'
      /\ contains NEW content' = true.
Proof.
  split; [reflexivity|].
  apply (main_success_has_new_line no_faults (Some generated_pyproject)). reflexivity.
Defined.

(** X2: [main] ends by returning 0, by returning 1, or by an exception that
    is not an OSError; it prints exactly one line to stderr when it returns 1
    and nothing otherwise. *)
Theorem main_diagnostics (io : Faults) (file : option string) :
  (outcome (main io file) = Returned 0
   \/ outcome (main io file) = Returned 1
   \/ exists e, outcome (main io file) = Raised e /\ isinstance_OSError e = false)
  /\ (outcome (main io file) = Returned 1 <-> exists line, stderr (main io file) = [line])
  /\ (outcome (main io file) <> Returned 1 <-> stderr (main io file) = []).
Proof.
  assert (forall (f : option string) (l : list string) (o : Outcome),
            (o = Returned 1 /\ exists line, l = [line])
            \/ (l = [] /\ (o = Returned 0
                           \/ exists e, o = Raised e /\ isinstance_OSError e = false)) ->
            (outcome (mkRun f l o) = Returned 0
             \/ outcome (mkRun f l o) = Returned 1
             \/ exists e, outcome (mkRun f l o) = Raised e
                          /\ isinstance_OSError e = false)
            /\ (outcome (mkRun f l o) = Returned 1
                <-> exists line, stderr (mkRun f l o) = [line])
            /\ (outcome (mkRun f l o) <> Returned 1 <-> stderr (mkRun f l o) = []))
    as Hshape.
  { intros f l o [[-> [line ->]] | [-> [-> | (e & -> & He)]]]; simpl.
    - split; [auto|]. split; split; eauto; congruence.
    - split; [auto|]. split; split; try congruence; try reflexivity.
      intros [line Hl]; discriminate.
    - split; [eauto|]. split; split; try congruence; try reflexivity.
      intros [line Hl]; discriminate. }
  unfold main, read_file, write_file.
  destruct (read_fault io) as [e|].
  { destruct (isinstance_OSError e) eqn:He; apply Hshape; eauto 6. }
  destruct file as [raw|]; [|apply Hshape; simpl; eauto].
  destruct (contains OLD (universal_newlines raw)); simpl.
  2:{ destruct (contains NEW (universal_newlines raw)); apply Hshape; eauto. }
  destruct (open_fault io) as [e|].
  { destruct (isinstance_OSError e) eqn:He; apply Hshape; eauto 6. }
  destruct (write_fault io) as [e|].
  { destruct (isinstance_OSError e) eqn:He; apply Hshape; eauto 6. }
  apply Hshape; eauto.
Qed.

(** X3: a run that returns 0 on a content that contains the old readme line
    leaves a content with exactly one occurrence of it fewer. *)
Theorem main_removes_one_occurrence (io : Faults) (content : string) :
  contains OLD content = true ->
  outcome (main io (Some content)) = Returned 0 ->
  exists content',
    file_after (main io (Some content)) = Some content'
    /\ S (occurrences OLD content') = occurrences OLD content.
Proof.
  intros Hc H.
  destruct (main_returned_0 io _ H) as (c & [= <-] & [(_ & ->) | (Hc' & _)]);
    [|congruence].
  eexists. split; [reflexivity|].
  rewrite occurrences_translate_newlines by (reflexivity || discriminate).
  rewrite OLD_occurrences_replace, OLD_occurrences_text.
  rewrite contains_occurrences in Hc.
  destruct (occurrences OLD content); [discriminate | reflexivity].
Qed.

Lemma main_removes_one_occurrence_witness :
  (contains OLD generated_pyproject = true
   /\ outcome (main no_faults (Some generated_pyproject)) = Returned 0)
  /\ exists content',
      file_after (main no_faults (Some generated_pyproject)) = Some content'
      /\ S (occurrences OLD content') = occurrences OLD generated_pyproject.
Proof.
  split; [split; reflexivity|].
  apply (main_removes_one_occurrence no_faults generated_pyproject); reflexivity.
Defined.

(** X4: with two or more occurrences of the old readme line the script is
    not idempotent: a second run succeeds again and changes the file again. *)
Theorem main_second_run_patches_again (content : string) :
  (2 <= occurrences OLD content)%nat ->
  outcome (main no_faults (Some content)) = Returned 0
  /\ outcome (main no_faults (file_after (main no_faults (Some content)))) = Returned 0
  /\ file_after (main no_faults (file_after (main no_faults (Some content))))
     <> file_after (main no_faults (Some content)).
Proof.
  intros Hocc.
  assert (contains OLD content = true) as Hc.
  { rewrite contains_occurrences. destruct (occurrences OLD content); [lia | reflexivity]. }
  rewrite (main_no_faults_patched content Hc). cbn [outcome file_after].
  assert (contains OLD (replace_first OLD NEW (universal_newlines content)) = true) as Hc'.
  { rewrite contains_occurrences, OLD_occurrences_replace, OLD_occurrences_text.
    destruct (occurrences OLD content) as [|[|n]]; [lia | lia | reflexivity]. }
  rewrite (main_no_faults_patched _ Hc'). cbn [outcome file_after].
  split; [reflexivity|]. split; [reflexivity|].
  intros [= E].
  apply (f_equal (occurrences OLD)) in E.
  rewrite !OLD_occurrences_replace, !OLD_occurrences_text in E.
  rewrite OLD_occurrences_replace, OLD_occurrences_text in E.
  destruct (occurrences OLD content) as [|[|n]]; simpl in E; lia.
Qed.

Lemma main_second_run_patches_again_witness :
  (2 <= occurrences OLD (generated_pyproject +:+ generated_pyproject))%nat
  /\ file_after (main no_faults
                   (file_after (main no_faults
                                  (Some (generated_pyproject +:+ generated_pyproject)))))
     <> file_after (main no_faults (Some (generated_pyproject +:+ generated_pyproject))).
Proof.
  split; [vm_compute; lia|].
  apply (main_second_run_patches_again (generated_pyproject +:+ generated_pyproject)).
  vm_compute; lia.
Defined.

(** X5: [main] changes pyproject.toml only after it has read it, found the
    old readme line in it and opened it for writing; in particular it never
    creates a file that is missing, and does not return 0 then. *)
Theorem main_writes_only_after_match (io : Faults) (file : option string) :
  (file_after (main io file) <> file ->
   exists content,
     file = Some content /\ read_fault io = None
     /\ contains OLD content = true /\ open_fault io = None)
  /\ file_after (main io None) = None
  /\ outcome (main io None) <> Returned 0.
Proof.
  unfold main, read_file, write_file. repeat apply conj.
  - destruct (read_fault io) as [e|].
    { destruct (isinstance_OSError e); simpl; intros Hne; now elim Hne. }
    destruct file as [content|]; [|simpl; intros Hne; now elim Hne].
    rewrite OLD_in_text.
    destruct (contains OLD content) eqn:Hc; simpl.
    + destruct (open_fault io) as [e|].
      { destruct (isinstance_OSError e); simpl; intros Hne; now elim Hne. }
      intros _. exists content. auto.
    + destruct (contains NEW _); simpl; intros Hne; now elim Hne.
  - destruct (read_fault io) as [e|]; [destruct (isinstance_OSError e)|]; reflexivity.
  - destruct (read_fault io) as [e|]; [destruct (isinstance_OSError e)|]; discriminate.
Qed.

Lemma main_writes_only_after_match_witness :
  file_after (main disk_full (Some generated_pyproject)) <> Some generated_pyproject
  /\ exists content,
      Some generated_pyproject = Some content /\ read_fault disk_full = None
      /\ contains OLD content = true /\ open_fault disk_full = None.
Proof.
  split; [discriminate|].
  apply (proj1 (main_writes_only_after_match disk_full (Some generated_pyproject))).
  discriminate.
Defined.

End PatchScriptMore.

(** ** The error classes: when the message is empty *)

Section ErrorClassesMore.
Import Py Errors.

(** X6: the message of a NotFoundError is empty only when nothing is left to
    show: [data.message] is the empty string, the body is None or empty, and
    the response has no text. *)
Theorem NotFoundError_message_empty
  (d : NotFoundErrorData) (r : Response) (b : option string) :
  NotFoundError_message d r b = ""
  <-> message d = Some "" /\ (b = None \/ b = Some "") /\ text r = "".
Proof.
  unfold NotFoundError_message, NotFoundError_fallback, str_or, opt_str_or.
  destruct d as [[[|c m]|] ap]; simpl.
  - destruct b as [[|c s]|]; simpl; split.
    + intros ->. auto.
    + now intros (_ & _ & ->).
    + discriminate.
    + intros (_ & [H | H] & _); discriminate.
    + intros ->. auto.
    + now intros (_ & _ & ->).
  - split; [discriminate | intros (H & _); discriminate].
  - split; [discriminate | intros (H & _); discriminate].
Qed.

End ErrorClassesMore.

(** ** The model classes: which arguments construct *)

Section ModelClassesMore.
Import Py Models.

Variable ext_valid : string -> PyVal -> bool.

Lemma collect_errors_iff (rs : list (FieldError + (string * PyVal))) (e : FieldError) :
  In e (fst (collect rs)) <-> In (inl e) rs.
Proof.
  split; [|apply collect_errors].
  induction rs as [|r rs IH]; simpl; [tauto|].
  destruct (collect rs) as [errs attrs]. destruct r as [e'|a]; simpl in *.
  - intros [-> | H]; auto.
  - auto.
Qed.

Lemma collect_inr (attrs : list (string * PyVal)) :
  collect (map inr attrs) = ([], attrs).
Proof. induction attrs as [|a attrs IH]; simpl; [reflexivity | now rewrite IH]. Qed.

Lemma collect_no_errors (rs : list (FieldError + (string * PyVal))) :
  fst (collect rs) = [] -> rs = map inr (snd (collect rs)).
Proof.
  induction rs as [|r rs IH]; simpl; [reflexivity|].
  destruct (collect rs) as [errs attrs]. destruct r as [e|a]; simpl in *.
  - discriminate.
  - intros H. now rewrite <- IH.
Qed.

(** Construction succeeds exactly when every field validates. *)
Lemma construct_inr_iff (cls : ModelClass) (kwargs : gmap string PyVal) (obj : PyVal) :
  construct ext_valid cls kwargs = inr obj
  <-> exists attrs,
        map (validate_field ext_valid kwargs) (fields cls) = map inr attrs
        /\ obj = VObj (class_name cls) attrs.
Proof.
  unfold construct. split.
  - pose proof (collect_no_errors (map (validate_field ext_valid kwargs) (fields cls))) as H.
    destruct (collect _) as [[|e errs] attrs]; [|discriminate].
    intros [= <-]. exists attrs. split; [now apply H | reflexivity].
  - intros (attrs & -> & ->). now rewrite collect_inr.
Qed.

(** The missing-field errors name exactly the fields without a default that
    the arguments leave out. *)
Lemma construct_missing_iff (cls : ModelClass) (kwargs : gmap string PyVal)
  (errs : list FieldError) (name : string) :
  construct ext_valid cls kwargs = inl errs ->
  (In (Missing name) errs
   <-> exists f, In f (fields cls) /\ field_name f = name
                 /\ field_default f = None /\ kwargs !! name = None).
Proof.
  unfold construct.
  pose proof (collect_errors_iff (map (validate_field ext_valid kwargs) (fields cls))
                (Missing name)) as H.
  destruct (collect _) as [[|e errs'] attrs]; [discriminate|].
  intros [= <-]. simpl in H. rewrite H, in_map_iff. split.
  - intros (f & Hf & Hin). exists f. split; [exact Hin|].
    unfold validate_field in Hf.
    destruct (kwargs !! field_name f) eqn:Hk.
    + destruct (conforms _ _ _); discriminate.
    + destruct (field_default f); [discriminate|].
      injection Hf as <-. auto.
  - intros (f & Hin & <- & Hd & Hk). exists f. split; [|exact Hin].
    unfold validate_field. now rewrite Hk, Hd.
Qed.

Lemma validate_str (kwargs : gmap string PyVal) (n : string)
  (p : option PathParamMetadata) (a : string * PyVal) :
  validate_field ext_valid kwargs (mkField n TStr None p) = inr a
  <-> str_given (kwargs !! n) /\ a = (n, default VNone (kwargs !! n)).
Proof.
  unfold validate_field, str_given. simpl.
  destruct (kwargs !! n) as [v|]; simpl.
  - destruct v; simpl; split;
      try discriminate; try (intros [[s [= ]] _]); try (intros [= <-]; eauto).
    intros [_ ->]. reflexivity.
  - split; [discriminate | intros [[s [= ]] _]].
Qed.

Lemma validate_opt_str (kwargs : gmap string PyVal) (n : string)
  (p : option PathParamMetadata) (a : string * PyVal) :
  validate_field ext_valid kwargs (mkField n (TOptional TStr) (Some VNone) p) = inr a
  <-> opt_str_given (kwargs !! n) /\ a = (n, default VNone (kwargs !! n)).
Proof.
  unfold validate_field, opt_str_given. simpl.
  destruct (kwargs !! n) as [v|]; simpl.
  - destruct v; simpl; split;
      try discriminate;
      try (intros [[H | [H | [s H]]] _]; discriminate);
      try (intros [= <-]; eauto 6);
      try (intros [_ ->]; reflexivity).
  - split; [intros [= <-]; auto | intros [_ ->]; reflexivity].
Qed.

(** X7: AWSKinesisConfig is built exactly from arguments in which
    [stream_name] and [region] are strings and [endpoint] and
    [partition_key_template] are each absent, None or a string; the instance
    holds the given values, and None where none was given. *)
Theorem AWSKinesisConfig_construct_iff (kwargs : gmap string PyVal) :
  ((exists obj, construct ext_valid AWSKinesisConfig kwargs = inr obj)
   <-> str_given (kwargs !! "stream_name") /\ str_given (kwargs !! "region")
       /\ opt_str_given (kwargs !! "endpoint")
       /\ opt_str_given (kwargs !! "partition_key_template"))
  /\ (forall obj,
       construct ext_valid AWSKinesisConfig kwargs = inr obj ->
       obj = VObj "AWSKinesisConfig"
               [("stream_name", default VNone (kwargs !! "stream_name"));
                ("region", default VNone (kwargs !! "region"));
                ("endpoint", default VNone (kwargs !! "endpoint"));
                ("partition_key_template",
                 default VNone (kwargs !! "partition_key_template"))]).
Proof.
  split; [split|].
  - intros (obj & H). apply construct_inr_iff in H as (attrs & H & _).
    destruct attrs as [|a1 [|a2 [|a3 [|a4 attrs]]]]; try discriminate.
    cbn [map fields AWSKinesisConfig] in H.
    injection H as H1 H2 H3 H4.
    apply validate_str in H1 as [H1 _]. apply validate_str in H2 as [H2 _].
    apply validate_opt_str in H3 as [H3 _]. apply validate_opt_str in H4 as [H4 _].
    auto.
  - intros (H1 & H2 & H3 & H4). eexists. apply construct_inr_iff.
    eexists [_; _; _; _]. split; [|reflexivity].
    cbn [map fields AWSKinesisConfig]. repeat f_equal.
    + now apply validate_str.
    + now apply validate_str.
    + now apply validate_opt_str.
    + now apply validate_opt_str.
  - intros obj H. apply construct_inr_iff in H as (attrs & H & ->).
    destruct attrs as [|a1 [|a2 [|a3 [|a4 [|a5 attrs]]]]]; try discriminate.
    cbn [map fields AWSKinesisConfig] in H.
    injection H as H1 H2 H3 H4.
    apply validate_str in H1 as [_ ->]. apply validate_str in H2 as [_ ->].
    apply validate_opt_str in H3 as [_ ->]. apply validate_opt_str in H4 as [_ ->].
    reflexivity.
Qed.

(** X8: in each model file the TypedDict and the model declare the same
    keys, and arguments that supply every key the TypedDict requires are
    never refused for a missing field. *)
Theorem typeddict_keys_suffice (td : TypedDictClass) (cls : ModelClass)
  (kwargs : gmap string PyVal) :
  In (td, cls) declared_models ->
  map key_name (keys td) = map field_name (fields cls)
  /\ ((forall k, In k (required_keys td) -> is_Some (kwargs !! k)) ->
      forall errs name,
        construct ext_valid cls kwargs = inl errs -> ~ In (Missing name) errs).
Proof.
  intros Hin. split.
  - simpl in Hin.
    repeat (destruct Hin as [[= <- <-] | Hin]; [reflexivity|]). destruct Hin.
  - intros Hreq errs name Hc Hm.
    apply (construct_missing_iff _ _ _ _ Hc) in Hm as (f & Hf & <- & Hd & Hk).
    assert (In (field_name f) (required_keys td)) as Hr.
    { simpl in Hin.
      repeat (destruct Hin as [[= <- <-] | Hin];
              [simpl in Hf;
               repeat (destruct Hf as [<- | Hf]; [try discriminate; simpl; tauto|]);
               destruct Hf|]).
      destruct Hin. }
    destruct (Hreq _ Hr) as [v Hv]. congruence.
Qed.

(** X9: [config] of DestinationUpdateHookdeck is [Optional[Any]] and takes
    any value as it is, while [config] of DestinationUpdateAWSSQS must be
    None or pass as an AWSSQSConfig. *)
Theorem destination_update_config (v : PyVal) :
  construct ext_valid DestinationUpdateHookdeck {["config" := v]}
  = inr (VObj "DestinationUpdateHookdeck"
           [("topics", VNone); ("config", v); ("credentials", VNone)])
  /\ ((exists obj, construct ext_valid DestinationUpdateAWSSQS {["config" := v]} = inr obj)
      <-> v = VNone \/ ext_valid "AWSSQSConfig" v = true).
Proof.
  split.
  - unfold construct, validate_field.
    cbn [map fields DestinationUpdateHookdeck field_name field_type field_default].
    rewrite lookup_singleton_eq, !lookup_singleton_ne by discriminate.
    destruct v; reflexivity.
  - unfold construct, validate_field.
    cbn [map fields DestinationUpdateAWSSQS field_name field_type field_default].
    rewrite lookup_singleton_eq, !lookup_singleton_ne by discriminate.
    destruct v; simpl; try (destruct (ext_valid "AWSSQSConfig" _) eqn:E; simpl);
      split; eauto; try (intros [obj H]; discriminate);
      try (intros [H | H]; discriminate).
Qed.

End ModelClassesMore.

Lemma typeddict_keys_suffice_witness :
  (In (Models.AWSKinesisConfigTypedDict, Models.AWSKinesisConfig) Models.declared_models
   /\ forall k, In k (Models.required_keys Models.AWSKinesisConfigTypedDict) ->
        is_Some ((<["stream_name" := Py.VInt 1]> (<["region" := Py.VNone]> ∅)
                  : gmap string Py.PyVal) !! k))
  /\ forall errs name,
      Models.construct (fun _ _ => true) Models.AWSKinesisConfig
        (<["stream_name" := Py.VInt 1]> (<["region" := Py.VNone]> ∅)) = inl errs ->
      ~ In (Models.Missing name) errs.
Proof.
  assert (forall k, In k (Models.required_keys Models.AWSKinesisConfigTypedDict) ->
            is_Some ((<["stream_name" := Py.VInt 1]> (<["region" := Py.VNone]> ∅)
                      : gmap string Py.PyVal) !! k)) as Hkeys.
  { intros k [<- | [<- | []]]; eexists; reflexivity. }
  split; [split; [left; reflexivity | exact Hkeys]|].
  apply (typeddict_keys_suffice (fun _ _ => true)
           Models.AWSKinesisConfigTypedDict Models.AWSKinesisConfig
           (<["stream_name" := Py.VInt 1]> (<["region" := Py.VNone]> ∅))).
  - left; reflexivity.
  - exact Hkeys.
Defined.

Example AWSKinesisConfig_wrong_types :
  Models.construct (fun _ _ => true) Models.AWSKinesisConfig
    (<["stream_name" := Py.VInt 1]> (<["region" := Py.VNone]> ∅))
  = inl [Models.WrongType "stream_name"; Models.WrongType "region"].
Proof. reflexivity. Qed.

(** ** The authentication example: clients and how a run ends *)

Section ExampleMore.
Import Py ExampleAuth.

Lemma scoped_app (o1 o2 o3 : list Outpost) (t1 t2 : list Event) :
  scoped o1 t1 o2 -> scoped o2 t2 o3 -> scoped o1 (t1 ++ t2) o3.
Proof.
  intros H1 H2. induction H1; simpl; try constructor; auto.
Qed.

Lemma with_jwt_scoped (srv : Server) (outpost : Outpost) (jwt : PyVal)
  (open : list Outpost) :
  scoped (outpost :: open) (trace (with_jwt srv outpost jwt)) (outpost :: open).
Proof.
  rewrite with_jwt_trace.
  destruct (srv outpost (DestinationsList None)); simpl; repeat constructor.
Qed.

Lemma with_admin_api_key_scoped (srv : Server) (outpost : Outpost)
  (tenant_id : string) (open : list Outpost) :
  scoped (outpost :: open) (trace (with_admin_api_key srv outpost tenant_id))
         (outpost :: open).
Proof.
  rewrite with_admin_api_key_cases. unfold trace at 1. cbn [fst].
  destruct (srv outpost HealthCheck) as [e|h]; simpl; [repeat constructor|].
  destruct (srv outpost (DestinationsList (Some tenant_id))) as [e|d]; simpl;
    [repeat constructor|].
  destruct (srv outpost (TenantsGetToken tenant_id)) as [e|t]; simpl;
    [repeat constructor|].
  do 10 constructor.
  destruct (token_obtained t); [|repeat constructor].
  destruct (optional_str (attr t "token")); [|repeat constructor].
  constructor. eapply scoped_app; [apply with_jwt_scoped | repeat constructor].
Qed.

(** The three guards of [run], as the cases of its result. *)
Lemma run_cases (srv : Server) (environ dotenv : gmap string string) :
  (exists line, run srv environ dotenv = ([Print line], inl (SystemExit 1)))
  \/ (exists a t s,
        set_value (getenv (load_dotenv environ dotenv) "ADMIN_API_KEY") = Some a
        /\ set_value (getenv (load_dotenv environ dotenv) "TENANT_ID") = Some t
        /\ set_value (getenv (load_dotenv environ dotenv) "SERVER_URL") = Some s).
Proof.
  destruct (set_value (getenv (load_dotenv environ dotenv) "ADMIN_API_KEY"))
    as [a|] eqn:Ea.
  2:{ left. eexists. unfold run. rewrite Ea. reflexivity. }
  destruct (set_value (getenv (load_dotenv environ dotenv) "TENANT_ID"))
    as [t|] eqn:Et.
  2:{ left. eexists. unfold run. rewrite Ea, Et. reflexivity. }
  destruct (set_value (getenv (load_dotenv environ dotenv) "SERVER_URL"))
    as [s|] eqn:Es.
  2:{ left. eexists. unfold run. rewrite Ea, Et, Es. reflexivity. }
  right. eauto 6.
Qed.

(** X10: in every run of the example, whatever the server answers, each SDK
    call is made on the innermost client that is open, each client that was
    built is closed again, innermost first, and none is left open. *)
Theorem run_clients_scoped (srv : Server) (environ dotenv : gmap string string) :
  scoped [] (trace (run srv environ dotenv)) [].
Proof.
  destruct (run_cases srv environ dotenv) as [[line ->] | (a & t & s & Ha & Ht & Hs)].
  - repeat constructor.
  - rewrite (run_all_set srv environ dotenv a t s Ha Ht Hs).
    unfold trace at 1. cbn [fst]. simpl. constructor.
    eapply scoped_app; [apply with_admin_api_key_scoped | repeat constructor].
Qed.

Example scoped_rejects_call_without_client :
  ~ scoped [] [Call admin_client HealthCheck] [].
Proof. intros H. inversion H. Qed.

Example scoped_rejects_unclosed_client :
  ~ scoped [] [NewOutpost admin_client; Call admin_client HealthCheck] [].
Proof. intros H. inversion H as [| | | |c o o' t H1|]; subst. inversion H1; subst.
  match goal with H2 : scoped _ [] _ |- _ => inversion H2 end. Qed.

Lemma set_value_Some (x : option string) (a : string) :
  set_value x = Some a -> x = Some a /\ a <> "".
Proof.
  unfold set_value, not_opt_str. destruct x as [[|c v]|]; simpl; try discriminate.
  intros [= <-]. split; [reflexivity | discriminate].
Qed.

(** The only client [with_admin_api_key] builds is the one for a token it
    obtained. *)
Lemma with_admin_api_key_builds (srv : Server) (outpost c : Outpost)
  (tenant_id : string) :
  In (NewOutpost c) (trace (with_admin_api_key srv outpost tenant_id)) ->
  exists token_res,
    srv outpost (TenantsGetToken tenant_id) = inr token_res
    /\ token_obtained token_res = true
    /\ c = jwt_client outpost token_res.
Proof.
  rewrite with_admin_api_key_cases. unfold trace at 1. cbn [fst].
  destruct (srv outpost HealthCheck) as [e|h]; simpl; [intuition discriminate|].
  destruct (srv outpost (DestinationsList (Some tenant_id))) as [e|d]; simpl;
    [intuition discriminate|].
  destruct (srv outpost (TenantsGetToken tenant_id)) as [e|t]; simpl;
    [intuition discriminate|].
  destruct (token_obtained t) eqn:Ht; simpl; [|intuition discriminate].
  destruct (optional_str (attr t "token")); simpl; [|intuition discriminate].
  rewrite with_jwt_trace.
  intros H. exists t. split; [reflexivity|]. split; [exact Ht|].
  repeat (destruct H as [H | H]; [try discriminate|]).
  - now injection H as <-.
  - destruct (srv (jwt_client outpost t) (DestinationsList None)); simpl in H;
      intuition discriminate.
Qed.

(** X11: every client a run of the example builds talks to SERVER_URL
    followed by [/api/v1]; it is either the admin client, holding the admin
    key and no token, or a client holding a truthy tenant token and not the
    admin key. *)
Theorem run_clients (srv : Server) (environ dotenv : gmap string string) (c : Outpost) :
  In (NewOutpost c) (trace (run srv environ dotenv)) ->
  exists a s,
    getenv (load_dotenv environ dotenv) "ADMIN_API_KEY" = Some a
    /\ getenv (load_dotenv environ dotenv) "SERVER_URL" = Some s
    /\ server_url c = s +:+ "/api/v1"
    /\ (security c = mkSecurity (VStr a) VNone
        \/ (admin_api_key (security c) = VNone
            /\ truthy (tenant_jwt (security c)) = true)).
Proof.
  destruct (run_cases srv environ dotenv) as [[line ->] | (a & t & s & Ha & Ht & Hs)].
  - simpl. intuition discriminate.
  - rewrite (run_all_set srv environ dotenv a t s Ha Ht Hs).
    unfold trace at 1. cbn [fst]. intros H.
    exists a, s.
    split; [now apply set_value_Some in Ha|].
    split; [now apply set_value_Some in Hs|].
    apply in_app_or in H as [H | H].
    + destruct H as [[= <-] | []]. simpl. auto.
    + apply in_app_or in H as [H | H].
      * apply with_admin_api_key_builds in H as (tr & _ & Htok & ->).
        split; [reflexivity|]. right. split; [reflexivity|].
        unfold token_obtained in Htok. simpl.
        now apply andb_true_iff in Htok as [_ Htok].
      * simpl in H. intuition discriminate.
Qed.

Lemma run_clients_witness :
  In (NewOutpost (jwt_client (mkOutpost (mkSecurity (VStr "secret") VNone)
                                "http://localhost:3333/api/v1")
                    (VObj "TenantToken" [("token", VStr "eyJhbGciOi")])))
     (trace (run healthy_server
               {["ADMIN_API_KEY" := "secret"; "TENANT_ID" := "tenant-1"]}
               {["SERVER_URL" := "http://localhost:3333"]}))
  /\ exists a s,
      getenv (load_dotenv {["ADMIN_API_KEY" := "secret"; "TENANT_ID" := "tenant-1"]}
                {["SERVER_URL" := "http://localhost:3333"]}) "ADMIN_API_KEY" = Some a
      /\ getenv (load_dotenv {["ADMIN_API_KEY" := "secret"; "TENANT_ID" := "tenant-1"]}
                   {["SERVER_URL" := "http://localhost:3333"]}) "SERVER_URL" = Some s
      /\ server_url (jwt_client (mkOutpost (mkSecurity (VStr "secret") VNone)
                                   "http://localhost:3333/api/v1")
                       (VObj "TenantToken" [("token", VStr "eyJhbGciOi")]))
         = s +:+ "/api/v1"
      /\ (security (jwt_client (mkOutpost (mkSecurity (VStr "secret") VNone)
                                  "http://localhost:3333/api/v1")
                      (VObj "TenantToken" [("token", VStr "eyJhbGciOi")]))
          = mkSecurity (VStr a) VNone
          \/ (admin_api_key
                (security (jwt_client (mkOutpost (mkSecurity (VStr "secret") VNone)
                                         "http://localhost:3333/api/v1")
                             (VObj "TenantToken" [("token", VStr "eyJhbGciOi")])))
              = VNone
              /\ truthy
                   (tenant_jwt
                      (security (jwt_client (mkOutpost (mkSecurity (VStr "secret") VNone)
                                               "http://localhost:3333/api/v1")
                                   (VObj "TenantToken" [("token", VStr "eyJhbGciOi")]))))
                 = true)).
Proof.
  assert (In (NewOutpost (jwt_client (mkOutpost (mkSecurity (VStr "secret") VNone)
                                        "http://localhost:3333/api/v1")
                            (VObj "TenantToken" [("token", VStr "eyJhbGciOi")])))
             (trace (run healthy_server
                       {["ADMIN_API_KEY" := "secret"; "TENANT_ID" := "tenant-1"]}
                       {["SERVER_URL" := "http://localhost:3333"]}))) as Hin.
  { vm_compute. do 11 right. left. reflexivity. }
  split; [exact Hin|].
  apply (run_clients healthy_server
           {["ADMIN_API_KEY" := "secret"; "TENANT_ID" := "tenant-1"]}
           {["SERVER_URL" := "http://localhost:3333"]}).
  exact Hin.
Defined.

(** X12: a run of the example ends in one of two ways, whatever the server
    does: it exits with status 1 after printing one line and before any SDK
    call, or it returns normally and its last action is to print the closing
    line.  No exception leaves [run]. *)
Theorem run_ends (srv : Server) (environ dotenv : gmap string string) :
  (result (run srv environ dotenv) = inl (SystemExit 1)
   /\ calls (trace (run srv environ dotenv)) = []
   /\ exists line, trace (run srv environ dotenv) = [Print line])
  \/ (result (run srv environ dotenv) = inr tt
      /\ exists t, trace (run srv environ dotenv)
                   = (t ++ [Print "--- Example finished ---"])%list).
Proof.
  destruct (run_cases srv environ dotenv) as [[line ->] | (a & t & s & Ha & Ht & Hs)].
  - left. split; [reflexivity|]. split; [reflexivity|]. now exists line.
  - right. rewrite (run_all_set srv environ dotenv a t s Ha Ht Hs).
    split; [reflexivity|]. unfold trace at 1. cbn [fst].
    eexists (_ :: _ ++ [_])%list. simpl. rewrite <- app_assoc. reflexivity.
Qed.

End ExampleMore.
